(** * CompetitorBoilerplate: signal computation and quoting logic

    A shallow embedding of [competitor_template.py].

    Modelling decisions.
    - Numbers.  Python numbers (prices, sizes, volatilities) are modelled
      by exact rationals [Q]; decimal literals of the source are written
      with the same digits ([0.02], [0.05], ...).  Rounding of binary
      floating point is outside this model.  Python's [==], [<], [>] on
      numbers are the numeric comparisons [Qeq_bool] and [Qle_bool].
    - Dictionaries.  [volatility_memory], [mid_price_memory], [ema_memory]
      and an order-book snapshot are [gmap]s keyed by strings.  Subscripting
      a dictionary at a missing key raises [KeyError]; [dict.get] with a
      default does not.
    - The base class [Participant] is an interface: an exchange state with
      a read-only snapshot query and an order-entry operation.  Every limit
      order handed to the order-entry operation is also appended to the
      [submitted] log, which is how theorems speak about "the orders
      submitted by a call".
    - Methods are computations in a state-and-exception monad over the
      instance. *)

From stdpp Require Import gmap strings list fin_maps.
From Stdlib Require Import QArith Qabs Qround Lqa.

Local Open Scope Q_scope.

(** ** Data model *)

(** One price level of a book side: [(price, size)]. *)
Definition Level : Type := Q * Q.

(** What [get_order_book_snapshot] returns when it returns a dictionary:
    keys such as ["bids"] and ["asks"] mapped to sequences of levels. *)
Abbreviation Snapshot := (gmap string (list Level)).

Inductive Side : Type := buy | sell.

Record Order : Type := mkOrder {
  o_price : Q;
  o_size : Q;
  o_side : Side;
  o_symbol : string
}.

(** The part of the base class the strategy uses. [X] is the state of the
    exchange behind the participant. *)
Class Participant (X : Type) : Type := {
  exch_snapshot : X -> string -> option Snapshot;
  exch_limit_order : X -> Order -> option Z * X
}.

Inductive exn : Type := KeyError (k : string).

Inductive result (A : Type) : Type :=
| Ok (a : A)
| Raise (e : exn).
Arguments Ok {A} a.
Arguments Raise {A} e.

(** ** Python helpers *)

Definition Qltb (x y : Q) : bool := negb (Qle_bool y x).

(** Truthiness of a dictionary: empty is false. *)
Definition dict_is_empty (d : Snapshot) : bool :=
  match map_to_list d with
  | [] => true
  | _ :: _ => false
  end.

(** [not snapshot]: true for [None] and for the empty dictionary. *)
Definition py_not (s : option Snapshot) : bool :=
  match s with
  | None => true
  | Some d => dict_is_empty d
  end.

(** [snapshot.get(key, [])], used after [py_not] has been excluded. *)
Definition snapshot_get (s : option Snapshot) (key : string) : list Level :=
  match s with
  | None => []
  | Some d => default [] (d !! key)
  end.

(** [sum(xs)]: a left fold starting from [0]. *)
Definition py_sum (xs : list Q) : Q := fold_left Qplus xs 0.

(** [int(x)]: truncation towards zero. *)
Definition py_int (x : Q) : Z :=
  if Qle_bool 0 x then Qfloor x else Qceiling x.

(** ** The instance and its monad *)

Section Competitor.
Context {X : Type} `{Participant X}.

Record Competitor : Type := mkCompetitor {
  symbols : list string;
  volatility_memory : gmap string Q;
  mid_price_memory : gmap string (option Q);
  ema_memory : gmap string (option Q);
  alpha : Q;
  exchange : X;
  submitted : list Order
}.

Definition M (A : Type) : Type := Competitor -> result A * Competitor.

Definition ret {A : Type} (a : A) : M A := fun st => (Ok a, st).

Definition bind {A B : Type} (m : M A) (k : A -> M B) : M B :=
  fun st =>
    match m st with
    | (Ok a, st') => k a st'
    | (Raise e, st') => (Raise e, st')
    end.

Notation "'do' x <- m ; k" := (bind m (fun x => k))
  (at level 10, x name, m at level 100, k at level 200).
Notation "'run' m ; k" := (bind m (fun _ => k))
  (at level 10, m at level 100, k at level 200).

(** [self.volatility_memory[symbol]] *)
Definition read_volatility (symbol : string) : M Q :=
  fun st =>
    match volatility_memory st !! symbol with
    | Some v => (Ok v, st)
    | None => (Raise (KeyError symbol), st)
    end.

(** [self.mid_price_memory[symbol]] *)
Definition read_mid_price (symbol : string) : M (option Q) :=
  fun st =>
    match mid_price_memory st !! symbol with
    | Some v => (Ok v, st)
    | None => (Raise (KeyError symbol), st)
    end.

(** [self.volatility_memory[symbol] = v] *)
Definition write_volatility (symbol : string) (v : Q) : M unit :=
  fun st =>
    (Ok tt,
     mkCompetitor (symbols st) (<[symbol := v]> (volatility_memory st))
       (mid_price_memory st) (ema_memory st) (alpha st)
       (exchange st) (submitted st)).

(** [self.mid_price_memory[symbol] = v] *)
Definition write_mid_price (symbol : string) (v : Q) : M unit :=
  fun st =>
    (Ok tt,
     mkCompetitor (symbols st) (volatility_memory st)
       (<[symbol := Some v]> (mid_price_memory st)) (ema_memory st) (alpha st)
       (exchange st) (submitted st)).

Definition get_order_book_snapshot (symbol : string) : M (option Snapshot) :=
  fun st => (Ok (exch_snapshot (exchange st) symbol), st).

Definition create_limit_order (price size : Q) (side : Side) (symbol : string)
  : M (option Z) :=
  fun st =>
    let o := mkOrder price size side symbol in
    let '(oid, x') := exch_limit_order (exchange st) o in
    (Ok oid,
     mkCompetitor (symbols st) (volatility_memory st) (mid_price_memory st)
       (ema_memory st) (alpha st) x' (submitted st ++ [o])).

(** [for p in prices: self.create_limit_order(price=p, size=..., ...)] *)
Fixpoint for_each_price (prices : list Q) (size : Q) (side : Side)
    (symbol : string) : M unit :=
  match prices with
  | [] => ret tt
  | p :: rest =>
      run create_limit_order p size side symbol ;
      for_each_price rest size side symbol
  end.

(** ** Methods *)

Definition the_symbols : list string := ["NVR"; "CPMD"; "MFH"; "ANG"; "TVW"]%string.

Definition init (x : X) : Competitor :=
  {| symbols := the_symbols;
     volatility_memory := list_to_map (map (fun s => (s, 0.0)) the_symbols);
     mid_price_memory := list_to_map (map (fun s => (s, None)) the_symbols);
     ema_memory := list_to_map (map (fun s => (s, None)) the_symbols);
     alpha := 0.1;
     exchange := x;
     submitted := [] |}.

Definition get_mid_price (symbol : string) : M (option Q) :=
  do snapshot <- get_order_book_snapshot symbol ;
  if py_not snapshot then ret None
  else
    let best_bid := snapshot_get snapshot "bids" in
    let best_ask := snapshot_get snapshot "asks" in
    match best_bid, best_ask with
    | b :: _, a :: _ => ret (Some ((fst b + fst a) / 2))
    | _, _ => ret None
    end.

Definition calculate_volatility (symbol : string) : M Q :=
  do mid_price <- get_mid_price symbol ;
  match mid_price with
  | None => read_volatility symbol
  | Some mid =>
      do last <- read_mid_price symbol ;
      match last with
      | None => run write_mid_price symbol mid ; ret 0.0
      | Some last_mid =>
          let price_change := Qabs (mid - last_mid) in
          run write_volatility symbol price_change ;
          run write_mid_price symbol mid ;
          ret price_change
      end
  end.

Definition calculate_order_book_imbalance (symbol : string) : M Q :=
  do snapshot <- get_order_book_snapshot symbol ;
  if py_not snapshot then ret 0
  else
    let bids := snapshot_get snapshot "bids" in
    let asks := snapshot_get snapshot "asks" in
    let total_bid_size := py_sum (map snd (take 5%nat bids)) in
    let total_ask_size := py_sum (map snd (take 5%nat asks)) in
    if Qeq_bool (total_bid_size + total_ask_size) 0 then ret 0
    else ret ((total_bid_size - total_ask_size)
              / (total_bid_size + total_ask_size)).

Definition adaptive_pennying_strategy (symbol : string) : M unit :=
  do snapshot <- get_order_book_snapshot symbol ;
  if py_not snapshot then ret tt
  else
    let bids := snapshot_get snapshot "bids" in
    let asks := snapshot_get snapshot "asks" in
    match bids, asks with
    | b :: _, a :: _ =>
        let best_bid := fst b in
        let best_ask := fst a in
        do mid_price <- get_mid_price symbol ;
        do volatility <- calculate_volatility symbol ;
        do imbalance <- calculate_order_book_imbalance symbol ;
        let '(penny_bid_levels, penny_ask_levels) :=
          if Qltb 0 imbalance then
            ([best_bid + 0.02; best_bid + 0.03], [best_ask - 0.01])
          else if Qltb imbalance 0 then
            ([best_bid + 0.01], [best_ask - 0.02; best_ask - 0.03])
          else
            ([best_bid + 0.01; best_bid + 0.02],
             [best_ask - 0.01; best_ask - 0.02]) in
        run for_each_price penny_bid_levels 5 buy symbol ;
        for_each_price penny_ask_levels 5 sell symbol
    | _, _ => ret tt
    end.

Definition volatility_adaptive_levels (symbol : string) : M unit :=
  do snapshot <- get_order_book_snapshot symbol ;
  if py_not snapshot then ret tt
  else
    let bids := snapshot_get snapshot "bids" in
    let asks := snapshot_get snapshot "asks" in
    let best_bid := match bids with b :: _ => Some (fst b) | [] => None end in
    let best_ask := match asks with a :: _ => Some (fst a) | [] => None end in
    match best_bid, best_ask with
    | Some best_bid, Some best_ask =>
        do volatility <- calculate_volatility symbol ;
        let base_level_distance := 0.05 in
        let level_factor := 1 + (volatility * 0.1) in
        let level_distance := base_level_distance * level_factor in
        let deep_bid_levels :=
          map (fun i => best_bid - level_distance * i) [1; 2; 3] in
        let deep_ask_levels :=
          map (fun i => best_ask + level_distance * i) [1; 2; 3] in
        run for_each_price deep_bid_levels 10 buy symbol ;
        for_each_price deep_ask_levels 10 sell symbol
    | _, _ => ret tt
    end.

Definition smart_order_sizing (symbol : string) : M Z :=
  do volatility <- calculate_volatility symbol ;
  let base_order_size := 10 in
  let order_size :=
    if Qltb volatility 0.5 then base_order_size * 1.5
    else if Qltb 2.0 volatility then base_order_size * 0.5
    else base_order_size in
  ret (Z.max 1 (py_int order_size)).

Definition detect_large_orders (symbol : string) : M unit :=
  do snapshot <- get_order_book_snapshot symbol ;
  if py_not snapshot then ret tt
  else
    let bids := snapshot_get snapshot "bids" in
    let asks := snapshot_get snapshot "asks" in
    let best_bid := match bids with b :: _ => Some (fst b) | [] => None end in
    let best_ask := match asks with a :: _ => Some (fst a) | [] => None end in
    match best_bid, best_ask with
    | Some _, Some _ =>
        let large_order_threshold := 50 in
        run (match bids with
             | b :: _ =>
                 if Qltb large_order_threshold (snd b)
                 then run create_limit_order (fst b + 0.01) 5 buy symbol ;
                      ret tt
                 else ret tt
             | [] => ret tt
             end) ;
        match asks with
        | a :: _ =>
            if Qltb large_order_threshold (snd a)
            then run create_limit_order (fst a - 0.01) 5 sell symbol ;
                 ret tt
            else ret tt
        | [] => ret tt
        end
    | _, _ => ret tt
    end.

Fixpoint strategy_loop (syms : list string) : M unit :=
  match syms with
  | [] => ret tt
  | symbol :: rest =>
      run adaptive_pennying_strategy symbol ;
      run volatility_adaptive_levels symbol ;
      run detect_large_orders symbol ;
      strategy_loop rest
  end.

Definition strategy : M unit :=
  fun st => strategy_loop (symbols st) st.

End Competitor.

Arguments Competitor X : clear implicits.
Arguments M X A : clear implicits.

(** ** A concrete exchange, for running the methods

    A book that answers snapshot queries from a fixed table and rejects
    every order (no order id, book unchanged). *)

#[export] Instance static_book : Participant (gmap string Snapshot) := {
  exch_snapshot := fun x symbol => x !! symbol;
  exch_limit_order := fun x _ => (None, x)
}.

Definition one_level_book (symbol : string) (bid ask : Level)
  : gmap string Snapshot :=
  {[ symbol := <["bids"%string := [bid]]> {[ "asks"%string := [ask] ]} ]}.

(** [self.exchange] replaced by the outside world between two calls. *)
Definition with_exchange {X : Type} (st : Competitor X) (x : X) : Competitor X :=
  mkCompetitor (symbols st) (volatility_memory st) (mid_price_memory st)
    (ema_memory st) (alpha st) x (submitted st).

(** ** Predicates used in the statements *)

(** The symbol is one of the configured ones: both memories have its key. *)
Definition tracked {X : Type} (st : Competitor X) (symbol : string) : Prop :=
  is_Some (volatility_memory st !! symbol) /\
  is_Some (mid_price_memory st !! symbol).

(** No mid-price can be read off the snapshot. *)
Definition unobservable (s : option Snapshot) : Prop :=
  py_not s = true \/ snapshot_get s "bids" = [] \/ snapshot_get s "asks" = [].

Definition nonneg_sizes (levels : list Level) : Prop :=
  Forall (fun l => 0 <= snd l) levels.

(** Every stored volatility is non-negative. *)
Definition vol_nonneg {X : Type} (st : Competitor X) : Prop :=
  forall symbol v, volatility_memory st !! symbol = Some v -> 0 <= v.

(** Same three memories. *)
Definition same_memory {X : Type} (st st' : Competitor X) : Prop :=
  volatility_memory st' = volatility_memory st /\
  mid_price_memory st' = mid_price_memory st /\
  ema_memory st' = ema_memory st.


(** ** Order entry, calls and reachable states *)

Section Model.
Context {X : Type} `{Participant X}.

(** The instance after the given orders have gone to the order-entry
    interface one after the other. *)
Definition place_all (os : list Order) (st : Competitor X) : Competitor X :=
  fold_left
    (fun s o =>
       snd (create_limit_order (o_price o) (o_size o) (o_side o) (o_symbol o) s))
    os st.

(** What [detect_large_orders] sends for best levels [b] and [a]. *)
Definition large_order_reaction (symbol : string) (b a : Level) : list Order :=
  (if Qltb 50 (snd b) then [mkOrder (fst b + 0.01) 5 buy symbol] else []) ++
  (if Qltb 50 (snd a) then [mkOrder (fst a - 0.01) 5 sell symbol] else []).

(** The calls a client of the class can make. *)
Inductive call : Type :=
| CallGetMidPrice (symbol : string)
| CallCalculateVolatility (symbol : string)
| CallCalculateOrderBookImbalance (symbol : string)
| CallAdaptivePennyingStrategy (symbol : string)
| CallVolatilityAdaptiveLevels (symbol : string)
| CallSmartOrderSizing (symbol : string)
| CallDetectLargeOrders (symbol : string)
| CallStrategy.

(** The instance a call leaves behind, whether it returns or raises. *)
Definition after (c : call) (st : Competitor X) : Competitor X :=
  match c with
  | CallGetMidPrice s => snd (get_mid_price s st)
  | CallCalculateVolatility s => snd (calculate_volatility s st)
  | CallCalculateOrderBookImbalance s => snd (calculate_order_book_imbalance s st)
  | CallAdaptivePennyingStrategy s => snd (adaptive_pennying_strategy s st)
  | CallVolatilityAdaptiveLevels s => snd (volatility_adaptive_levels s st)
  | CallSmartOrderSizing s => snd (smart_order_sizing s st)
  | CallDetectLargeOrders s => snd (detect_large_orders s st)
  | CallStrategy => snd (strategy st)
  end.

(** States of an instance: constructed by [__init__], then any sequence of
    calls, with the exchange free to change between them. *)
Inductive reachable : Competitor X -> Prop :=
| reachable_init (x : X) : reachable (init x)
| reachable_call (c : call) (st : Competitor X) :
    reachable st -> reachable (after c st)
| reachable_world (st : Competitor X) (x : X) :
    reachable st -> reachable (with_exchange st x).

(** The invariant: stored volatilities are non-negative, and the symbols
    in [keep] have their entries in both memories. *)
Definition memory_ok (keep : list string) (st : Competitor X) : Prop :=
  vol_nonneg st /\ (forall symbol, In symbol keep -> tracked st symbol).

Definition preserves {A : Type} (keep : list string) (m : M X A) : Prop :=
  forall st, memory_ok keep st -> memory_ok keep (snd (m st)).

End Model.

(** ** Relations and invariants for whole-class properties *)

Section Relations.
Context {X : Type} `{Participant X}.

(** A computation relates the instance it starts from to the one it
    leaves, whether it returns or raises. *)
Definition respects {A : Type} (R : Competitor X -> Competitor X -> Prop)
    (m : M X A) : Prop :=
  forall st, R st (snd (m st)).

(** The order log only grows at its end. *)
Definition log_extends (st st' : Competitor X) : Prop :=
  exists os, submitted st' = submitted st ++ os.

(** The fields no method assigns. *)
Definition same_config (st st' : Competitor X) : Prop :=
  symbols st' = symbols st /\ alpha st' = alpha st /\
  ema_memory st' = ema_memory st.

(** A symbol without a recorded mid-price still has its initial
    volatility. *)
Definition cold_zero (st : Competitor X) : Prop :=
  forall symbol,
    mid_price_memory st !! symbol = Some None ->
    volatility_memory st !! symbol = Some 0.0.

(** The symbol list is the configured one and the two memories have
    exactly its keys. *)
Definition configured (st : Competitor X) : Prop :=
  symbols st = the_symbols /\
  forall symbol,
    (is_Some (volatility_memory st !! symbol) <-> In symbol the_symbols) /\
    (is_Some (mid_price_memory st !! symbol) <-> In symbol the_symbols).

(** Order entry does not change what the next snapshot of [symbol] shows
    (orders are queued, or rest on another book). *)
Definition quiet_entry (symbol : string) : Prop :=
  forall (x : X) (o : Order),
    exch_snapshot (snd (exch_limit_order x o)) symbol = exch_snapshot x symbol.

(** The size [smart_order_sizing] derives from a volatility. *)
Definition sized (v : Q) : Z :=
  Z.max 1
    (py_int (if Qltb v 0.5 then 10 * 1.5
             else if Qltb 2.0 v then 10 * 0.5
             else 10)).

End Relations.

(** ** Concrete instances *)

Definition book_a : gmap string Snapshot :=
  one_level_book "NVR" (10.00, 20) (10.10, 5).

Definition book_b : gmap string Snapshot :=
  one_level_book "NVR" (10.40, 60) (10.50, 70).

Definition dict_a : Snapshot :=
  <["bids"%string := [(10.00, 20)]]> {[ "asks"%string := [(10.10, 5)] ]}.

Definition dict_b : Snapshot :=
  <["bids"%string := [(10.40, 60)]]> {[ "asks"%string := [(10.50, 70)] ]}.

(** A fresh instance in front of [book_a]. *)
Definition st_cold : Competitor (gmap string Snapshot) := init book_a.

(** The same instance after one volatility computation, now in front of
    [book_b]: the recorded mid-price is 10.05, the current one 10.45. *)
Definition st_warm : Competitor (gmap string Snapshot) :=
  with_exchange (snd (calculate_volatility "NVR" st_cold)) book_b.

(** A fresh instance in front of an exchange with no book at all. *)
Definition st_dark : Competitor (gmap string Snapshot) := init ∅.

(** A fresh instance in front of a book for a symbol it was not configured
    with. *)
Definition st_stranger : Competitor (gmap string Snapshot) :=
  init (one_level_book "ZZZ" (10.00, 20) (10.10, 5)).

(** The warmed instance in front of a book whose mid-price has jumped to
    13.05. *)
Definition st_hot : Competitor (gmap string Snapshot) :=
  with_exchange (snd (calculate_volatility "NVR" st_cold))
    (one_level_book "NVR" (13.00, 1) (13.10, 1)).

(** ** Basic facts *)

Lemma Qltb_lt (x y : Q) : Qltb x y = true <-> x < y.
Proof.
  unfold Qltb. rewrite negb_true_iff.
  split.
  - intros Hb. apply Qnot_le_lt. intros Hle.
    apply Qle_bool_iff in Hle. congruence.
  - intros Hlt. destruct (Qle_bool y x) eqn:E; [|reflexivity].
    apply Qle_bool_iff in E. exfalso. eapply Qlt_not_le; eassumption.
Qed.

Lemma Qltb_ge (x y : Q) : Qltb x y = false <-> y <= x.
Proof.
  unfold Qltb. rewrite negb_false_iff. apply Qle_bool_iff.
Qed.

Lemma dict_with_key_nonempty (d : Snapshot) (k : string) (v : list Level) :
  d !! k = Some v -> dict_is_empty d = false.
Proof.
  intros Hk. unfold dict_is_empty.
  destruct (map_to_list d) eqn:E; [|reflexivity].
  apply map_to_list_empty_iff in E. subst d.
  rewrite lookup_empty in Hk. discriminate.
Qed.

Ltac step_monad :=
  unfold bind, ret, get_order_book_snapshot, read_volatility, read_mid_price,
    write_volatility, write_mid_price; cbn.

Section Frames.
Context {X : Type} `{Participant X}.

(** [get_mid_price] is a query: it returns the instance as it found it. *)
Lemma get_mid_price_pure (symbol : string) (st : Competitor X) :
  exists r, get_mid_price symbol st = (Ok r, st).
Proof.
  unfold get_mid_price. step_monad.
  destruct (py_not _); [eauto|].
  destruct (snapshot_get _ "bids"); [eauto|].
  destruct (snapshot_get _ "asks"); eauto.
Qed.

Lemma get_mid_price_unobservable (symbol : string) (st : Competitor X) :
  unobservable (exch_snapshot (exchange st) symbol) ->
  get_mid_price symbol st = (Ok None, st).
Proof.
  intros Hu. unfold get_mid_price. step_monad.
  destruct (py_not _) eqn:Hn; [reflexivity|].
  destruct Hu as [Hu|[Hu|Hu]]; [congruence| |]; rewrite Hu; [reflexivity|].
  destruct (snapshot_get _ "bids"); reflexivity.
Qed.

Lemma get_mid_price_observable (symbol : string) (st : Competitor X)
    (d : Snapshot) (b a : Level) (bids asks : list Level) :
  exch_snapshot (exchange st) symbol = Some d ->
  d !! "bids"%string = Some (b :: bids) ->
  d !! "asks"%string = Some (a :: asks) ->
  get_mid_price symbol st = (Ok (Some ((fst b + fst a) / 2)), st).
Proof.
  intros Hs Hb Ha. unfold get_mid_price. step_monad.
  rewrite Hs. cbn. rewrite (dict_with_key_nonempty _ _ _ Hb), Hb, Ha.
  reflexivity.
Qed.

(** What [calculate_volatility] does once the mid-price has been read. *)
Lemma calculate_volatility_miss (symbol : string) (st : Competitor X) :
  get_mid_price symbol st = (Ok None, st) ->
  calculate_volatility symbol st = read_volatility symbol st.
Proof.
  intros Hm. unfold calculate_volatility, bind. rewrite Hm. reflexivity.
Qed.

Lemma calculate_volatility_cold (symbol : string) (st : Competitor X) (mid : Q) :
  get_mid_price symbol st = (Ok (Some mid), st) ->
  mid_price_memory st !! symbol = Some None ->
  calculate_volatility symbol st =
    (Ok 0.0,
     mkCompetitor (symbols st) (volatility_memory st)
       (<[symbol := Some mid]> (mid_price_memory st)) (ema_memory st)
       (alpha st) (exchange st) (submitted st)).
Proof.
  intros Hm Hl. unfold calculate_volatility, bind at 1. rewrite Hm.
  step_monad. rewrite Hl. reflexivity.
Qed.

Lemma calculate_volatility_warm (symbol : string) (st : Competitor X)
    (mid last : Q) :
  get_mid_price symbol st = (Ok (Some mid), st) ->
  mid_price_memory st !! symbol = Some (Some last) ->
  calculate_volatility symbol st =
    (Ok (Qabs (mid - last)),
     mkCompetitor (symbols st)
       (<[symbol := Qabs (mid - last)]> (volatility_memory st))
       (<[symbol := Some mid]> (mid_price_memory st)) (ema_memory st)
       (alpha st) (exchange st) (submitted st)).
Proof.
  intros Hm Hl. unfold calculate_volatility, bind at 1. rewrite Hm.
  step_monad. rewrite Hl. reflexivity.
Qed.

Lemma calculate_volatility_untracked (symbol : string) (st : Competitor X)
    (mid : Q) :
  get_mid_price symbol st = (Ok (Some mid), st) ->
  mid_price_memory st !! symbol = None ->
  calculate_volatility symbol st = (Raise (KeyError symbol), st).
Proof.
  intros Hm Hl. unfold calculate_volatility, bind at 1. rewrite Hm.
  step_monad. rewrite Hl. reflexivity.
Qed.

(** [calculate_volatility] touches the two memories at [symbol] and nothing
    else: not the exchange, not the order log, not [ema_memory]. *)
Lemma calculate_volatility_frame (symbol : string) (st : Competitor X) :
  let st' := snd (calculate_volatility symbol st) in
  symbols st' = symbols st /\ ema_memory st' = ema_memory st /\
  alpha st' = alpha st /\ exchange st' = exchange st /\
  submitted st' = submitted st /\
  (forall other, other <> symbol ->
     volatility_memory st' !! other = volatility_memory st !! other /\
     mid_price_memory st' !! other = mid_price_memory st !! other).
Proof.
  destruct (get_mid_price_pure symbol st) as [[mid|] Hm].
  - destruct (mid_price_memory st !! symbol) as [[last|]|] eqn:Hl.
    + rewrite (calculate_volatility_warm _ _ _ _ Hm Hl). cbn.
      repeat split; try reflexivity; by rewrite lookup_insert_ne.
    + rewrite (calculate_volatility_cold _ _ _ Hm Hl). cbn.
      repeat split; try reflexivity; by rewrite lookup_insert_ne.
    + rewrite (calculate_volatility_untracked _ _ _ Hm Hl). cbn. tauto.
  - rewrite (calculate_volatility_miss _ _ Hm). unfold read_volatility.
    destruct (volatility_memory st !! symbol); cbn; tauto.
Qed.

(** *** Order entry *)

Lemma create_limit_order_run (p size : Q) (side : Side) (symbol : string)
    (st : Competitor X) :
  exists oid,
    create_limit_order p size side symbol st =
      (Ok oid, place_all [mkOrder p size side symbol] st).
Proof.
  unfold place_all, create_limit_order. cbn.
  destruct (exch_limit_order _ _) as [oid x']. eauto.
Qed.

Lemma for_each_price_run (prices : list Q) (size : Q) (side : Side)
    (symbol : string) (st : Competitor X) :
  for_each_price prices size side symbol st =
    (Ok tt, place_all (map (fun p => mkOrder p size side symbol) prices) st).
Proof.
  revert st. induction prices as [|p rest IH]; intros st; [reflexivity|].
  cbn [for_each_price map]. unfold bind.
  destruct (create_limit_order_run p size side symbol st) as [oid ->].
  rewrite IH. reflexivity.
Qed.

Lemma place_all_app (os1 os2 : list Order) (st : Competitor X) :
  place_all (os1 ++ os2) st = place_all os2 (place_all os1 st).
Proof. unfold place_all. apply fold_left_app. Qed.

(** Order entry appends to the log and leaves every memory alone. *)
Lemma place_all_frame (os : list Order) (st : Competitor X) :
  symbols (place_all os st) = symbols st /\
  same_memory st (place_all os st) /\
  alpha (place_all os st) = alpha st /\
  submitted (place_all os st) = submitted st ++ os.
Proof.
  revert st. induction os as [|o os IH]; intros st.
  - cbn. unfold same_memory. by rewrite app_nil_r.
  - change (place_all (o :: os) st) with
      (place_all os (place_all [o] st)).
    destruct (IH (place_all [o] st)) as (Hs & (Hv & Hm & He) & Ha & Hl).
    unfold same_memory.
    rewrite Hs, Hv, Hm, He, Ha, Hl. unfold place_all, create_limit_order. cbn.
    destruct (exch_limit_order _ _) as [oid x']. destruct o. cbn.
    by rewrite <- app_assoc.
Qed.

End Frames.

Section SubStrategies.
Context {X : Type} `{Participant X}.

(** *** Imbalance *)

(** [calculate_order_book_imbalance] is a query. *)
Lemma calculate_order_book_imbalance_pure (symbol : string) (st : Competitor X) :
  exists r, calculate_order_book_imbalance symbol st = (Ok r, st).
Proof.
  unfold calculate_order_book_imbalance. step_monad.
  destruct (py_not _); [eauto|].
  destruct (Qeq_bool _ _); eauto.
Qed.

(** *** Large-order reaction *)

Lemma detect_large_orders_two_sided (symbol : string) (st : Competitor X)
    (b a : Level) (bids asks : list Level) :
  py_not (exch_snapshot (exchange st) symbol) = false ->
  snapshot_get (exch_snapshot (exchange st) symbol) "bids" = b :: bids ->
  snapshot_get (exch_snapshot (exchange st) symbol) "asks" = a :: asks ->
  detect_large_orders symbol st =
    (Ok tt, place_all (large_order_reaction symbol b a) st).
Proof.
  intros Hn Hb Ha. unfold detect_large_orders, large_order_reaction.
  step_monad. rewrite Hn, Hb, Ha. cbn.
  destruct (Qltb 50 (snd b)), (Qltb 50 (snd a)); cbn;
    unfold create_limit_order; cbn;
    repeat (destruct (exch_limit_order _ _); cbn); reflexivity.
Qed.

Lemma detect_large_orders_unobservable (symbol : string) (st : Competitor X) :
  unobservable (exch_snapshot (exchange st) symbol) ->
  detect_large_orders symbol st = (Ok tt, st).
Proof.
  intros Hu. unfold detect_large_orders. step_monad.
  destruct (py_not _) eqn:Hn; [reflexivity|].
  destruct Hu as [Hu|[Hu|Hu]]; [congruence| |]; rewrite Hu; [reflexivity|].
  destruct (snapshot_get _ "bids"); reflexivity.
Qed.

Lemma detect_large_orders_places (symbol : string) (st : Competitor X) :
  exists os, detect_large_orders symbol st = (Ok tt, place_all os st).
Proof.
  destruct (py_not (exch_snapshot (exchange st) symbol)) eqn:Hn.
  { exists []. apply detect_large_orders_unobservable. by left. }
  destruct (snapshot_get (exch_snapshot (exchange st) symbol) "bids")
    as [|b bids] eqn:Hb.
  { exists []. apply detect_large_orders_unobservable. right. by left. }
  destruct (snapshot_get (exch_snapshot (exchange st) symbol) "asks")
    as [|a asks] eqn:Ha.
  { exists []. apply detect_large_orders_unobservable. right. by right. }
  eexists. eapply detect_large_orders_two_sided; eassumption.
Qed.

(** *** The two quoting strategies on a book without a mid-price *)

Lemma adaptive_pennying_unobservable (symbol : string) (st : Competitor X) :
  unobservable (exch_snapshot (exchange st) symbol) ->
  adaptive_pennying_strategy symbol st = (Ok tt, st).
Proof.
  intros Hu. unfold adaptive_pennying_strategy. step_monad.
  destruct (py_not _) eqn:Hn; [reflexivity|].
  destruct Hu as [Hu|[Hu|Hu]]; [congruence| |]; rewrite Hu; [reflexivity|].
  destruct (snapshot_get _ "bids"); reflexivity.
Qed.

Lemma volatility_adaptive_levels_unobservable (symbol : string)
    (st : Competitor X) :
  unobservable (exch_snapshot (exchange st) symbol) ->
  volatility_adaptive_levels symbol st = (Ok tt, st).
Proof.
  intros Hu. unfold volatility_adaptive_levels. step_monad.
  destruct (py_not _) eqn:Hn; [reflexivity|].
  destruct Hu as [Hu|[Hu|Hu]]; [congruence| |]; rewrite Hu; [reflexivity|].
  destruct (snapshot_get _ "bids"); reflexivity.
Qed.

End SubStrategies.

Section Quoting.
Context {X : Type} `{Participant X}.

(** The imbalance is read off the exchange alone. *)
Lemma calculate_order_book_imbalance_exchange (symbol : string)
    (st st' : Competitor X) :
  exchange st' = exchange st ->
  fst (calculate_order_book_imbalance symbol st') =
  fst (calculate_order_book_imbalance symbol st).
Proof.
  intros He. unfold calculate_order_book_imbalance. step_monad. rewrite He.
  destruct (py_not _); [reflexivity|].
  destruct (Qeq_bool _ _); reflexivity.
Qed.

Lemma adaptive_pennying_run (symbol : string) (st st1 : Competitor X)
    (d : Snapshot) (b a : Level) (bids asks : list Level) (v imb : Q) :
  exch_snapshot (exchange st) symbol = Some d ->
  d !! "bids"%string = Some (b :: bids) ->
  d !! "asks"%string = Some (a :: asks) ->
  calculate_volatility symbol st = (Ok v, st1) ->
  calculate_order_book_imbalance symbol st = (Ok imb, st) ->
  adaptive_pennying_strategy symbol st =
    (Ok tt,
     place_all
       (if Qltb 0 imb then
          [mkOrder (fst b + 0.02) 5 buy symbol;
           mkOrder (fst b + 0.03) 5 buy symbol;
           mkOrder (fst a - 0.01) 5 sell symbol]
        else if Qltb imb 0 then
          [mkOrder (fst b + 0.01) 5 buy symbol;
           mkOrder (fst a - 0.02) 5 sell symbol;
           mkOrder (fst a - 0.03) 5 sell symbol]
        else
          [mkOrder (fst b + 0.01) 5 buy symbol;
           mkOrder (fst b + 0.02) 5 buy symbol;
           mkOrder (fst a - 0.01) 5 sell symbol;
           mkOrder (fst a - 0.02) 5 sell symbol])
       st1).
Proof.
  intros Hs Hb Ha Hv Hi.
  pose proof (get_mid_price_observable _ _ _ _ _ _ _ Hs Hb Ha) as Hm.
  assert (He : exchange st1 = exchange st).
  { pose proof (calculate_volatility_frame symbol st) as Hf.
    rewrite Hv in Hf. cbn in Hf. tauto. }
  assert (Hi1 : calculate_order_book_imbalance symbol st1 = (Ok imb, st1)).
  { destruct (calculate_order_book_imbalance_pure symbol st1) as [r Hr].
    pose proof (calculate_order_book_imbalance_exchange symbol st st1 He) as E.
    rewrite Hr, Hi in E. cbn in E. congruence. }
  unfold adaptive_pennying_strategy.
  unfold bind at 1. unfold get_order_book_snapshot at 1. rewrite Hs.
  cbn [py_not snapshot_get default].
  rewrite (dict_with_key_nonempty _ _ _ Hb), Hb, Ha.
  cbn [default from_option id].
  unfold bind at 1. rewrite Hm.
  unfold bind at 1. rewrite Hv.
  unfold bind at 1. rewrite Hi1.
  destruct (Qltb 0 imb); [|destruct (Qltb imb 0)];
    unfold bind; rewrite !for_each_price_run; cbn [map];
    rewrite <- place_all_app; reflexivity.
Qed.

Lemma volatility_adaptive_levels_run (symbol : string) (st st1 : Competitor X)
    (d : Snapshot) (b a : Level) (bids asks : list Level) (v : Q) :
  exch_snapshot (exchange st) symbol = Some d ->
  d !! "bids"%string = Some (b :: bids) ->
  d !! "asks"%string = Some (a :: asks) ->
  calculate_volatility symbol st = (Ok v, st1) ->
  volatility_adaptive_levels symbol st =
    (Ok tt,
     place_all
       [mkOrder (fst b - 0.05 * (1 + v * 0.1) * 1) 10 buy symbol;
        mkOrder (fst b - 0.05 * (1 + v * 0.1) * 2) 10 buy symbol;
        mkOrder (fst b - 0.05 * (1 + v * 0.1) * 3) 10 buy symbol;
        mkOrder (fst a + 0.05 * (1 + v * 0.1) * 1) 10 sell symbol;
        mkOrder (fst a + 0.05 * (1 + v * 0.1) * 2) 10 sell symbol;
        mkOrder (fst a + 0.05 * (1 + v * 0.1) * 3) 10 sell symbol]
       st1).
Proof.
  intros Hs Hb Ha Hv.
  unfold volatility_adaptive_levels.
  unfold bind at 1. unfold get_order_book_snapshot at 1. rewrite Hs.
  cbn [py_not snapshot_get default].
  rewrite (dict_with_key_nonempty _ _ _ Hb), Hb, Ha.
  cbn [default from_option id].
  unfold bind at 1. rewrite Hv.
  unfold bind; rewrite !for_each_price_run; cbn [map].
  rewrite <- place_all_app. reflexivity.
Qed.

End Quoting.

(** ** Arithmetic of the imbalance ratio *)

Lemma fold_left_Qplus_nonneg (xs : list Q) (acc : Q) :
  0 <= acc -> Forall (fun x => 0 <= x) xs -> 0 <= fold_left Qplus xs acc.
Proof.
  revert acc. induction xs as [|x xs IH]; intros acc Hacc Hxs; [exact Hacc|].
  inversion Hxs as [|? ? Hx Hrest]; subst. cbn. apply IH; [lra|exact Hrest].
Qed.

Lemma top5_sum_nonneg (levels : list Level) :
  nonneg_sizes levels -> 0 <= py_sum (map snd (take 5%nat levels)).
Proof.
  intros Hn. unfold py_sum. apply fold_left_Qplus_nonneg; [lra|].
  apply Forall_map. apply Forall_take. exact Hn.
Qed.

Lemma ratio_bounded (b a : Q) :
  0 <= b -> 0 <= a -> ~ b + a == 0 ->
  -1 <= (b - a) / (b + a) /\ (b - a) / (b + a) <= 1.
Proof.
  intros Hb Ha Hne.
  assert (Hpos : 0 < b + a).
  { destruct (Qlt_le_dec 0 (b + a)) as [Hlt|Hle]; [exact Hlt|].
    exfalso. apply Hne. lra. }
  split.
  - apply Qle_shift_div_l; [exact Hpos|lra].
  - apply Qle_shift_div_r; [exact Hpos|lra].
Qed.

Section Sizing.
Context {X : Type} `{Participant X}.

(** [smart_order_sizing] is [calculate_volatility] followed by a pure
    computation on its result. *)
Lemma smart_order_sizing_run (symbol : string) (st st1 : Competitor X) (v : Q) :
  calculate_volatility symbol st = (Ok v, st1) ->
  smart_order_sizing symbol st =
    (Ok (Z.max 1
           (py_int (if Qltb v 0.5 then 10 * 1.5
                    else if Qltb 2.0 v then 10 * 0.5
                    else 10))),
     st1).
Proof.
  intros Hv. unfold smart_order_sizing, bind. rewrite Hv. reflexivity.
Qed.

Lemma smart_order_sizing_raise (symbol : string) (st st1 : Competitor X)
    (e : exn) :
  calculate_volatility symbol st = (Raise e, st1) ->
  smart_order_sizing symbol st = (Raise e, st1).
Proof.
  intros Hv. unfold smart_order_sizing, bind. rewrite Hv. reflexivity.
Qed.

Lemma smart_order_sizing_state (symbol : string) (st : Competitor X) :
  snd (smart_order_sizing symbol st) = snd (calculate_volatility symbol st).
Proof.
  destruct (calculate_volatility symbol st) as [[v|e] st1] eqn:Hv.
  - by rewrite (smart_order_sizing_run _ _ _ _ Hv).
  - by rewrite (smart_order_sizing_raise _ _ _ _ Hv).
Qed.

End Sizing.

(** ** Reachable states and the volatility invariant *)

Section Reachability.
Context {X : Type} `{Participant X}.

Section Preservation.
Variable keep : list string.

Lemma preserves_ret {A : Type} (a : A) : preserves (X:=X) keep (ret a).
Proof. intros st Hst. exact Hst. Qed.

Lemma preserves_bind {A B : Type} (m : M X A) (k : A -> M X B) :
  preserves keep m -> (forall a, preserves (X:=X) keep (k a)) -> preserves (X:=X) keep (bind m k).
Proof.
  intros Hm Hk st Hst. unfold bind.
  specialize (Hm st Hst). destruct (m st) as [[a|e] st']; cbn in Hm.
  - apply Hk. exact Hm.
  - exact Hm.
Qed.

Lemma preserves_get_order_book_snapshot (symbol : string) :
  preserves (X:=X) keep (get_order_book_snapshot symbol).
Proof. intros st Hst. exact Hst. Qed.

Lemma preserves_read_volatility (symbol : string) :
  preserves (X:=X) keep (read_volatility symbol).
Proof.
  intros st Hst. unfold read_volatility.
  destruct (volatility_memory st !! symbol); exact Hst.
Qed.

Lemma preserves_read_mid_price (symbol : string) :
  preserves (X:=X) keep (read_mid_price symbol).
Proof.
  intros st Hst. unfold read_mid_price.
  destruct (mid_price_memory st !! symbol); exact Hst.
Qed.

Lemma preserves_write_volatility (symbol : string) (v : Q) :
  0 <= v -> preserves (X:=X) keep (write_volatility symbol v).
Proof.
  intros Hv st [Hn Ht]. split.
  - intros s w. cbn. rewrite lookup_insert. case_decide.
    + intros [= <-]. exact Hv.
    + apply Hn.
  - intros s Hs. destruct (Ht s Hs) as [Hsv Hsm]. split; cbn; [|exact Hsm].
    rewrite lookup_insert. case_decide; [eauto|exact Hsv].
Qed.

Lemma preserves_write_mid_price (symbol : string) (v : Q) :
  preserves (X:=X) keep (write_mid_price symbol v).
Proof.
  intros st [Hn Ht]. split.
  - exact Hn.
  - intros s Hs. destruct (Ht s Hs) as [Hsv Hsm]. split; cbn; [exact Hsv|].
    rewrite lookup_insert. case_decide; [eauto|exact Hsm].
Qed.

Lemma preserves_create_limit_order (p size : Q) (side : Side) (symbol : string) :
  preserves (X:=X) keep (create_limit_order p size side symbol).
Proof.
  intros st Hst. unfold create_limit_order.
  destruct (exch_limit_order _ _) as [oid x']. exact Hst.
Qed.

Lemma preserves_for_each_price (prices : list Q) (size : Q) (side : Side)
    (symbol : string) :
  preserves (X:=X) keep (for_each_price prices size side symbol).
Proof.
  induction prices as [|p rest IH]; cbn [for_each_price].
  - apply preserves_ret.
  - apply preserves_bind; [apply preserves_create_limit_order|intros _; exact IH].
Qed.

Lemma preserves_get_mid_price (symbol : string) :
  preserves (X:=X) keep (get_mid_price symbol).
Proof.
  intros st Hst. destruct (get_mid_price_pure symbol st) as [r ->]. exact Hst.
Qed.

Lemma preserves_calculate_volatility (symbol : string) :
  preserves (X:=X) keep (calculate_volatility symbol).
Proof.
  unfold calculate_volatility.
  apply preserves_bind; [apply preserves_get_mid_price|].
  intros [mid|]; [|apply preserves_read_volatility].
  apply preserves_bind; [apply preserves_read_mid_price|].
  intros [last|].
  - apply preserves_bind; [apply preserves_write_volatility, Qabs_nonneg|].
    intros _. apply preserves_bind; [apply preserves_write_mid_price|].
    intros _. apply preserves_ret.
  - apply preserves_bind; [apply preserves_write_mid_price|].
    intros _. apply preserves_ret.
Qed.

Lemma preserves_calculate_order_book_imbalance (symbol : string) :
  preserves (X:=X) keep (calculate_order_book_imbalance symbol).
Proof.
  intros st Hst.
  destruct (calculate_order_book_imbalance_pure symbol st) as [r ->].
  exact Hst.
Qed.

Lemma preserves_adaptive_pennying_strategy (symbol : string) :
  preserves (X:=X) keep (adaptive_pennying_strategy symbol).
Proof.
  unfold adaptive_pennying_strategy.
  apply preserves_bind; [apply preserves_get_order_book_snapshot|].
  intros s. destruct (py_not s); [apply preserves_ret|].
  destruct (snapshot_get s "bids"); [apply preserves_ret|].
  destruct (snapshot_get s "asks"); [apply preserves_ret|].
  apply preserves_bind; [apply preserves_get_mid_price|]. intros _.
  apply preserves_bind; [apply preserves_calculate_volatility|]. intros _.
  apply preserves_bind; [apply preserves_calculate_order_book_imbalance|].
  intros imb.
  destruct (Qltb 0 imb); [|destruct (Qltb imb 0)];
    (apply preserves_bind; [|intros _]); apply preserves_for_each_price.
Qed.

Lemma preserves_volatility_adaptive_levels (symbol : string) :
  preserves (X:=X) keep (volatility_adaptive_levels symbol).
Proof.
  unfold volatility_adaptive_levels.
  apply preserves_bind; [apply preserves_get_order_book_snapshot|].
  intros s. destruct (py_not s); [apply preserves_ret|].
  destruct (snapshot_get s "bids"); [apply preserves_ret|].
  destruct (snapshot_get s "asks"); [apply preserves_ret|].
  apply preserves_bind; [apply preserves_calculate_volatility|]. intros v.
  (apply preserves_bind; [|intros _]); apply preserves_for_each_price.
Qed.

Lemma preserves_smart_order_sizing (symbol : string) :
  preserves (X:=X) keep (smart_order_sizing symbol).
Proof.
  unfold smart_order_sizing.
  apply preserves_bind; [apply preserves_calculate_volatility|]. intros v.
  apply preserves_ret.
Qed.

Lemma preserves_detect_large_orders (symbol : string) :
  preserves (X:=X) keep (detect_large_orders symbol).
Proof.
  intros st Hst. destruct (detect_large_orders_places symbol st) as [os ->].
  destruct (place_all_frame os st) as (_ & (Hv & Hm & _) & _).
  destruct Hst as [Hn Ht]. unfold memory_ok, vol_nonneg, tracked in *. cbn.
  rewrite Hv, Hm. split; assumption.
Qed.

Lemma preserves_strategy_loop (syms : list string) :
  preserves (X:=X) keep (strategy_loop syms).
Proof.
  induction syms as [|s rest IH]; cbn [strategy_loop].
  - apply preserves_ret.
  - apply preserves_bind; [apply preserves_adaptive_pennying_strategy|].
    intros _.
    apply preserves_bind; [apply preserves_volatility_adaptive_levels|].
    intros _.
    apply preserves_bind; [apply preserves_detect_large_orders|].
    intros _. exact IH.
Qed.

Lemma memory_ok_after (c : call) (st : Competitor X) :
  memory_ok keep st -> memory_ok keep (after c st).
Proof.
  destruct c; cbn [after].
  - apply preserves_get_mid_price.
  - apply preserves_calculate_volatility.
  - apply preserves_calculate_order_book_imbalance.
  - apply preserves_adaptive_pennying_strategy.
  - apply preserves_volatility_adaptive_levels.
  - apply preserves_smart_order_sizing.
  - apply preserves_detect_large_orders.
  - unfold strategy. apply preserves_strategy_loop.
Qed.

End Preservation.

Lemma memory_ok_init (x : X) : memory_ok the_symbols (init x).
Proof.
  split.
  - intros s v. unfold init, the_symbols. cbn.
    rewrite !lookup_insert. repeat case_decide; intros [= <-]; lra.
  - intros s Hs. unfold tracked, init, the_symbols in *. cbn in *.
    destruct Hs as [<-|[<-|[<-|[<-|[<-|[]]]]]]; split; by eexists.
Qed.

Lemma reachable_memory_ok (st : Competitor X) :
  reachable st -> memory_ok the_symbols st.
Proof.
  induction 1 as [x|c st _ IH|st x _ IH].
  - apply memory_ok_init.
  - apply memory_ok_after. exact IH.
  - exact IH.
Qed.

End Reachability.

(** ** The specification, claim by claim *)

Section Claims.
Context {X : Type} `{Participant X}.

Lemma calculate_volatility_tracked (symbol : string) (st : Competitor X) :
  tracked st symbol ->
  exists v, calculate_volatility symbol st =
              (Ok v, snd (calculate_volatility symbol st)).
Proof.
  intros [[v Hv] [l Hl]].
  destruct (get_mid_price_pure symbol st) as [[mid|] Hm].
  - destruct l as [last|].
    + rewrite (calculate_volatility_warm _ _ _ _ Hm Hl). eauto.
    + rewrite (calculate_volatility_cold _ _ _ Hm Hl). eauto.
  - rewrite (calculate_volatility_miss _ _ Hm). unfold read_volatility.
    rewrite Hv. eauto.
Qed.

Lemma submitted_after_volatility (symbol : string) (st st1 : Competitor X)
    (r : result Q) (os : list Order) :
  calculate_volatility symbol st = (r, st1) ->
  submitted (place_all os st1) = submitted st ++ os.
Proof.
  intros Hv. pose proof (calculate_volatility_frame symbol st) as Hf.
  rewrite Hv in Hf. cbn in Hf. destruct Hf as (_ & _ & _ & _ & Hl & _).
  destruct (place_all_frame os st1) as (_ & _ & _ & ->). by rewrite Hl.
Qed.

(** C1.  On a book with both sides present, [adaptive_pennying_strategy]
    on a tracked symbol returns normally, and the orders it adds to the log
    are, in this order, size-5 limit orders chosen by the sign of the
    imbalance that [calculate_order_book_imbalance] reports: positive, buys
    at best bid + 0.02 and + 0.03 and a sell at best ask - 0.01; negative, a
    buy at + 0.01 and sells at - 0.02 and - 0.03; zero, buys at + 0.01 and
    + 0.02 and sells at - 0.01 and - 0.02.  Nothing else is submitted. *)
Theorem adaptive_pennying_levels (symbol : string) (st : Competitor X)
    (d : Snapshot) (b a : Level) (bids asks : list Level) :
  tracked st symbol ->
  exch_snapshot (exchange st) symbol = Some d ->
  d !! "bids"%string = Some (b :: bids) ->
  d !! "asks"%string = Some (a :: asks) ->
  exists imb st',
    calculate_order_book_imbalance symbol st = (Ok imb, st) /\
    adaptive_pennying_strategy symbol st = (Ok tt, st') /\
    (0 < imb ->
       submitted st' = submitted st ++
         [mkOrder (fst b + 0.02) 5 buy symbol;
          mkOrder (fst b + 0.03) 5 buy symbol;
          mkOrder (fst a - 0.01) 5 sell symbol]) /\
    (imb < 0 ->
       submitted st' = submitted st ++
         [mkOrder (fst b + 0.01) 5 buy symbol;
          mkOrder (fst a - 0.02) 5 sell symbol;
          mkOrder (fst a - 0.03) 5 sell symbol]) /\
    (imb == 0 ->
       submitted st' = submitted st ++
         [mkOrder (fst b + 0.01) 5 buy symbol;
          mkOrder (fst b + 0.02) 5 buy symbol;
          mkOrder (fst a - 0.01) 5 sell symbol;
          mkOrder (fst a - 0.02) 5 sell symbol]).
Proof.
  intros Ht Hs Hb Ha.
  destruct (calculate_volatility_tracked symbol st Ht) as [v Hv].
  destruct (calculate_order_book_imbalance_pure symbol st) as [imb Hi].
  exists imb. eexists. split; [exact Hi|]. split.
  { eapply adaptive_pennying_run; eassumption. }
  rewrite (submitted_after_volatility _ _ _ _ _ Hv).
  destruct (Qltb 0 imb) eqn:Hpos; [|destruct (Qltb imb 0) eqn:Hneg];
    try apply Qltb_lt in Hpos; try apply Qltb_ge in Hpos;
    try apply Qltb_lt in Hneg; try apply Qltb_ge in Hneg;
    (split; [intros ?|split; intros ?]); first [reflexivity | lra].
Qed.

(** C2.  When a mid-price is observable, [calculate_volatility] does one of
    two things.  With no mid-price recorded for the symbol it records the
    current one, returns [0.0] and changes nothing else.  With [last]
    recorded it returns [|mid - last|], stores that as the symbol's
    volatility and records the current mid-price. *)
Theorem calculate_volatility_observed (symbol : string) (st : Competitor X)
    (mid : Q) :
  get_mid_price symbol st = (Ok (Some mid), st) ->
  (mid_price_memory st !! symbol = Some None ->
     calculate_volatility symbol st =
       (Ok 0.0,
        mkCompetitor (symbols st) (volatility_memory st)
          (<[symbol := Some mid]> (mid_price_memory st)) (ema_memory st)
          (alpha st) (exchange st) (submitted st))) /\
  (forall last,
     mid_price_memory st !! symbol = Some (Some last) ->
     calculate_volatility symbol st =
       (Ok (Qabs (mid - last)),
        mkCompetitor (symbols st)
          (<[symbol := Qabs (mid - last)]> (volatility_memory st))
          (<[symbol := Some mid]> (mid_price_memory st)) (ema_memory st)
          (alpha st) (exchange st) (submitted st))).
Proof.
  intros Hm. split.
  - apply calculate_volatility_cold. exact Hm.
  - intros last. apply calculate_volatility_warm. exact Hm.
Qed.

(** C3.  When the snapshot is absent, empty, or lacks a side,
    [calculate_volatility] on a symbol with a stored volatility returns
    that stored value and leaves the instance exactly as it was (so a
    second miss gives the same answer), and each of the three sub-strategies
    returns with the instance unchanged: no order is submitted. *)
Theorem missing_book_is_inert (symbol : string) (st : Competitor X) :
  unobservable (exch_snapshot (exchange st) symbol) ->
  (forall v, volatility_memory st !! symbol = Some v ->
     calculate_volatility symbol st = (Ok v, st) /\
     calculate_volatility symbol (snd (calculate_volatility symbol st)) =
       (Ok v, st)) /\
  adaptive_pennying_strategy symbol st = (Ok tt, st) /\
  volatility_adaptive_levels symbol st = (Ok tt, st) /\
  detect_large_orders symbol st = (Ok tt, st).
Proof.
  intros Hu.
  pose proof (calculate_volatility_miss _ _ (get_mid_price_unobservable _ _ Hu))
    as Hmiss.
  split; [|split; [|split]].
  - intros v Hv.
    assert (Hc : calculate_volatility symbol st = (Ok v, st)).
    { rewrite Hmiss. unfold read_volatility. by rewrite Hv. }
    rewrite Hc. cbn. by split.
  - by apply adaptive_pennying_unobservable.
  - by apply volatility_adaptive_levels_unobservable.
  - by apply detect_large_orders_unobservable.
Qed.

(** C4.  With non-negative resting sizes, [calculate_order_book_imbalance]
    returns without touching the instance; writing [B] and [A] for the sums
    of the sizes of the first five bid and ask levels (all of them when
    there are fewer, none for a side that is missing), the result is
    [(B - A) / (B + A)] unless both sums are zero, it lies between -1 and 1,
    and it is [0] when both sums are zero and when the snapshot is absent
    or empty. *)
Theorem imbalance_ratio (symbol : string) (st : Competitor X) :
  let s := exch_snapshot (exchange st) symbol in
  let B := py_sum (map snd (take 5%nat (snapshot_get s "bids"))) in
  let A := py_sum (map snd (take 5%nat (snapshot_get s "asks"))) in
  nonneg_sizes (snapshot_get s "bids") ->
  nonneg_sizes (snapshot_get s "asks") ->
  exists r,
    calculate_order_book_imbalance symbol st = (Ok r, st) /\
    (py_not s = true -> r = 0) /\
    (B == 0 -> A == 0 -> r = 0) /\
    (py_not s = false -> ~ (B == 0 /\ A == 0) -> r = (B - A) / (B + A)) /\
    -1 <= r /\ r <= 1 /\
    (forall d, s = Some d -> d !! "bids"%string = None -> B = 0) /\
    (forall d, s = Some d -> d !! "asks"%string = None -> A = 0).
Proof.
  intros s B A Hnb Hna.
  pose proof (top5_sum_nonneg _ Hnb) as HB. fold B in HB.
  pose proof (top5_sum_nonneg _ Hna) as HA. fold A in HA.
  assert (Hmiss : forall k d, s = Some d -> d !! k = None ->
            py_sum (map snd (take 5%nat (snapshot_get s k))) = 0).
  { intros k d Hsd Hk. unfold snapshot_get. rewrite Hsd, Hk. reflexivity. }
  unfold calculate_order_book_imbalance. step_monad.
  fold s. destruct (py_not s) eqn:Hn.
  { exists 0. split_and!; try (intros; reflexivity); try lra; try congruence.
    - apply (Hmiss "bids"%string).
    - apply (Hmiss "asks"%string). }
  fold B A. destruct (Qeq_bool (B + A) 0) eqn:Hz.
  - apply Qeq_bool_iff in Hz. exists 0.
    split_and!; try (intros; reflexivity); try lra.
    + apply (Hmiss "bids"%string).
    + apply (Hmiss "asks"%string).
  - apply Qeq_bool_neq in Hz.
    destruct (ratio_bounded B A HB HA Hz) as [Hlo Hhi].
    exists ((B - A) / (B + A)).
    split_and!; try (intros; reflexivity); try assumption; try congruence.
    + intros HB0 HA0. exfalso. apply Hz. lra.
    + apply (Hmiss "bids"%string).
    + apply (Hmiss "asks"%string).
Qed.

(** C5.  On a book with a best bid and a best ask, for a tracked symbol,
    [volatility_adaptive_levels] takes the volatility [v] that
    [calculate_volatility] returns, sets the level distance to
    [0.05 * (1 + v * 0.1)], and adds to the log exactly three size-10 buys
    at best bid minus 1, 2 and 3 level distances followed by three size-10
    sells at best ask plus 1, 2 and 3 level distances. *)
Theorem volatility_adaptive_levels_orders (symbol : string) (st : Competitor X)
    (d : Snapshot) (b a : Level) (bids asks : list Level) :
  tracked st symbol ->
  exch_snapshot (exchange st) symbol = Some d ->
  d !! "bids"%string = Some (b :: bids) ->
  d !! "asks"%string = Some (a :: asks) ->
  exists v st1 st',
    calculate_volatility symbol st = (Ok v, st1) /\
    volatility_adaptive_levels symbol st = (Ok tt, st') /\
    same_memory st1 st' /\
    let level_distance := 0.05 * (1 + v * 0.1) in
    submitted st' = submitted st ++
      [mkOrder (fst b - level_distance * 1) 10 buy symbol;
       mkOrder (fst b - level_distance * 2) 10 buy symbol;
       mkOrder (fst b - level_distance * 3) 10 buy symbol;
       mkOrder (fst a + level_distance * 1) 10 sell symbol;
       mkOrder (fst a + level_distance * 2) 10 sell symbol;
       mkOrder (fst a + level_distance * 3) 10 sell symbol].
Proof.
  intros Ht Hs Hb Ha.
  destruct (calculate_volatility_tracked symbol st Ht) as [v Hv].
  exists v. do 2 eexists. split; [exact Hv|]. split.
  { eapply volatility_adaptive_levels_run; eassumption. }
  split.
  - apply place_all_frame.
  - cbv zeta. apply (submitted_after_volatility _ _ _ _ _ Hv).
Qed.

(** C6.  On a book with a best bid and a best ask, [detect_large_orders]
    returns normally and adds to the log a size-5 buy at best bid + 0.01
    exactly when the best bid's size exceeds 50, and a size-5 sell at best
    ask - 0.01 exactly when the best ask's size exceeds 50; the two tests
    are independent, and a size of exactly 50 triggers nothing. *)
Theorem detect_large_orders_threshold (symbol : string) (st : Competitor X)
    (d : Snapshot) (b a : Level) (bids asks : list Level) :
  exch_snapshot (exchange st) symbol = Some d ->
  d !! "bids"%string = Some (b :: bids) ->
  d !! "asks"%string = Some (a :: asks) ->
  exists st',
    detect_large_orders symbol st = (Ok tt, st') /\
    same_memory st st' /\
    let buy_order := mkOrder (fst b + 0.01) 5 buy symbol in
    let sell_order := mkOrder (fst a - 0.01) 5 sell symbol in
    (50 < snd b -> 50 < snd a ->
       submitted st' = submitted st ++ [buy_order; sell_order]) /\
    (50 < snd b -> snd a <= 50 -> submitted st' = submitted st ++ [buy_order]) /\
    (snd b <= 50 -> 50 < snd a -> submitted st' = submitted st ++ [sell_order]) /\
    (snd b <= 50 -> snd a <= 50 -> submitted st' = submitted st).
Proof.
  intros Hs Hb Ha. eexists. split.
  { apply (detect_large_orders_two_sided symbol st b a bids asks).
    - rewrite Hs. cbn. eapply dict_with_key_nonempty; eassumption.
    - rewrite Hs. cbn. by rewrite Hb.
    - rewrite Hs. cbn. by rewrite Ha. }
  destruct (place_all_frame (large_order_reaction symbol b a) st)
    as (_ & Hmem & _ & ->).
  split; [exact Hmem|]. cbv zeta. unfold large_order_reaction.
  destruct (Qltb 50 (snd b)) eqn:Eb, (Qltb 50 (snd a)) eqn:Ea;
    try apply Qltb_lt in Eb; try apply Qltb_lt in Ea;
    try apply Qltb_ge in Eb; try apply Qltb_ge in Ea; cbn [app];
    split_and!; intros; try reflexivity; try lra.
  by rewrite app_nil_r.
Qed.

(** C7, as the code has it.  [smart_order_sizing] submits no order and
    leaves the exchange, [ema_memory] and the symbol list alone, but it is
    not free of effects: it leaves the instance exactly as one call of
    [calculate_volatility] does.  So only the entries of its own symbol can
    change, and nothing changes when no mid-price is observable. *)
Theorem smart_order_sizing_effect (symbol : string) (st : Competitor X) :
  let st' := snd (smart_order_sizing symbol st) in
  st' = snd (calculate_volatility symbol st) /\
  submitted st' = submitted st /\
  exchange st' = exchange st /\
  ema_memory st' = ema_memory st /\
  symbols st' = symbols st /\
  (forall other, other <> symbol ->
     volatility_memory st' !! other = volatility_memory st !! other /\
     mid_price_memory st' !! other = mid_price_memory st !! other) /\
  (unobservable (exch_snapshot (exchange st) symbol) -> st' = st).
Proof.
  cbv zeta. rewrite smart_order_sizing_state.
  pose proof (calculate_volatility_frame symbol st) as Hf. cbv zeta in Hf.
  destruct Hf as (Hsy & He & _ & Hx & Hl & Ho).
  split_and!; try reflexivity; try assumption.
  intros Hu.
  rewrite (calculate_volatility_miss _ _ (get_mid_price_unobservable _ _ Hu)).
  unfold read_volatility. by destruct (volatility_memory st !! symbol).
Qed.

(** C8.  Whatever volatility [v] the call computes, [smart_order_sizing]
    returns the floor of 10 scaled by 1.5 when [v < 0.5], by 0.5 when
    [v > 2.0] and by 1 otherwise, but never less than 1: 15 for 0.4, 10 for
    1.0, 5 for 2.5, and always an integer of at least 1. *)
Theorem smart_order_sizing_value (symbol : string) (st st1 : Competitor X)
    (v : Q) :
  calculate_volatility symbol st = (Ok v, st1) ->
  exists n : Z,
    smart_order_sizing symbol st = (Ok n, st1) /\
    (v < 0.5 -> n = Z.max 1 (Qfloor (10 * 1.5))) /\
    (2.0 < v -> n = Z.max 1 (Qfloor (10 * 0.5))) /\
    (0.5 <= v -> v <= 2.0 -> n = Z.max 1 (Qfloor (10 * 1))) /\
    (v == 0.4 -> n = 15%Z) /\
    (v == 1.0 -> n = 10%Z) /\
    (v == 2.5 -> n = 5%Z) /\
    (1 <= n)%Z.
Proof.
  intros Hv. eexists. split; [apply smart_order_sizing_run; exact Hv|].
  destruct (Qltb v 0.5) eqn:Elo; [|destruct (Qltb 2.0 v) eqn:Ehi];
    try apply Qltb_lt in Elo; try apply Qltb_ge in Elo;
    try apply Qltb_lt in Ehi; try apply Qltb_ge in Ehi;
    split_and!; intros; try reflexivity; try lra; try (vm_compute; congruence).
Qed.

(** C9.  [__init__] stores volatility [0.0] for each configured symbol;
    no call, whether it returns or raises, makes a stored volatility
    negative; so in every state an instance can be in, each stored
    volatility is non-negative, and each configured symbol has one. *)
Theorem stored_volatility_nonneg :
  (forall (x : X) symbol,
     In symbol the_symbols ->
     volatility_memory (init x) !! symbol = Some 0.0) /\
  (forall (c : call) (st : Competitor X),
     vol_nonneg st -> vol_nonneg (after c st)) /\
  (forall st : Competitor X,
     reachable st ->
     (forall symbol v, volatility_memory st !! symbol = Some v -> 0 <= v) /\
     (forall symbol, In symbol the_symbols ->
        exists v, volatility_memory st !! symbol = Some v /\ 0 <= v)).
Proof.
  split_and!.
  - intros x symbol Hs. unfold the_symbols in Hs. cbn in Hs.
    destruct Hs as [<-|[<-|[<-|[<-|[<-|[]]]]]]; reflexivity.
  - intros c st Hn.
    apply (memory_ok_after [] c st). split; [exact Hn|intros s []].
  - intros st Hr. destruct (reachable_memory_ok st Hr) as [Hn Ht].
    split; [exact Hn|].
    intros symbol Hs. destruct (Ht symbol Hs) as [[v Hv] _].
    exists v. split; [exact Hv|]. eapply Hn. exact Hv.
Qed.

(** C10.  [detect_large_orders] leaves the three memories as they were, and
    [calculate_order_book_imbalance] leaves the whole instance as it was,
    in every state and for every symbol, whatever the book shows. *)
Theorem queries_keep_memory (symbol : string) (st : Competitor X) :
  same_memory st (snd (detect_large_orders symbol st)) /\
  same_memory st (snd (calculate_order_book_imbalance symbol st)) /\
  snd (calculate_order_book_imbalance symbol st) = st.
Proof.
  destruct (detect_large_orders_places symbol st) as [os ->].
  destruct (calculate_order_book_imbalance_pure symbol st) as [r ->].
  cbn. split; [apply place_all_frame|]. by split.
Qed.

End Claims.

(** ** Concrete runs *)

Lemma tracked_st_cold : tracked st_cold "NVR".
Proof. split; eexists; vm_compute; reflexivity. Defined.

Lemma tracked_st_warm : tracked st_warm "NVR".
Proof. split; eexists; vm_compute; reflexivity. Defined.

Lemma reachable_st_warm : reachable st_warm.
Proof.
  apply reachable_world.
  apply (reachable_call (CallCalculateVolatility "NVR")).
  apply reachable_init.
Defined.

Lemma adaptive_pennying_levels_witness :
  tracked st_cold "NVR" /\
  exch_snapshot (exchange st_cold) "NVR" = Some dict_a /\
  dict_a !! "bids"%string = Some [(10.00, 20)] /\
  dict_a !! "asks"%string = Some [(10.10, 5)] /\
  exists st',
    adaptive_pennying_strategy "NVR" st_cold = (Ok tt, st') /\
    submitted st' =
      [mkOrder (10.00 + 0.02) 5 buy "NVR";
       mkOrder (10.00 + 0.03) 5 buy "NVR";
       mkOrder (10.10 - 0.01) 5 sell "NVR"].
Proof.
  assert (Hs : exch_snapshot (exchange st_cold) "NVR" = Some dict_a)
    by (vm_compute; reflexivity).
  assert (Hb : dict_a !! "bids"%string = Some [(10.00, 20)])
    by (vm_compute; reflexivity).
  assert (Ha : dict_a !! "asks"%string = Some [(10.10, 5)])
    by (vm_compute; reflexivity).
  split_and!; try assumption; [apply tracked_st_cold|].
  destruct (adaptive_pennying_levels "NVR" st_cold dict_a (10.00, 20) (10.10, 5)
              [] [] tracked_st_cold Hs Hb Ha)
    as (imb & st' & Hi & Hrun & Hpos & _).
  exists st'. split; [exact Hrun|]. apply Hpos.
  assert (Hc : calculate_order_book_imbalance "NVR" st_cold =
               (Ok ((0 + 20 - (0 + 5)) / (0 + 20 + (0 + 5))), st_cold))
    by (vm_compute; reflexivity).
  rewrite Hc in Hi. injection Hi as <-. reflexivity.
Defined.

Lemma calculate_volatility_observed_witness :
  get_mid_price "NVR" st_warm = (Ok (Some ((10.40 + 10.50) / 2)), st_warm) /\
  mid_price_memory st_warm !! "NVR"%string = Some (Some ((10.00 + 10.10) / 2)) /\
  fst (calculate_volatility "NVR" st_warm) =
    Ok (Qabs ((10.40 + 10.50) / 2 - (10.00 + 10.10) / 2)).
Proof.
  assert (Hm : get_mid_price "NVR" st_warm =
               (Ok (Some ((10.40 + 10.50) / 2)), st_warm))
    by (vm_compute; reflexivity).
  assert (Hl : mid_price_memory st_warm !! "NVR"%string =
               Some (Some ((10.00 + 10.10) / 2)))
    by (vm_compute; reflexivity).
  split_and!; try assumption.
  destruct (calculate_volatility_observed "NVR" st_warm _ Hm) as [_ Hw].
  rewrite (Hw _ Hl). reflexivity.
Defined.

Lemma missing_book_is_inert_witness :
  unobservable (exch_snapshot (exchange st_dark) "NVR") /\
  calculate_volatility "NVR" st_dark = (Ok 0.0, st_dark) /\
  adaptive_pennying_strategy "NVR" st_dark = (Ok tt, st_dark) /\
  volatility_adaptive_levels "NVR" st_dark = (Ok tt, st_dark) /\
  detect_large_orders "NVR" st_dark = (Ok tt, st_dark).
Proof.
  assert (Hu : unobservable (exch_snapshot (exchange st_dark) "NVR"))
    by (left; vm_compute; reflexivity).
  destruct (missing_book_is_inert "NVR" st_dark Hu) as (Hv & Hp & Hd & Hl).
  split_and!; try assumption.
  apply (Hv 0.0). vm_compute. reflexivity.
Defined.

Lemma imbalance_ratio_witness :
  nonneg_sizes (snapshot_get (exch_snapshot (exchange st_cold) "NVR") "bids") /\
  nonneg_sizes (snapshot_get (exch_snapshot (exchange st_cold) "NVR") "asks") /\
  exists r,
    calculate_order_book_imbalance "NVR" st_cold = (Ok r, st_cold) /\
    -1 <= r /\ r <= 1.
Proof.
  assert (Hb : nonneg_sizes
                 (snapshot_get (exch_snapshot (exchange st_cold) "NVR") "bids")).
  { change (Forall (fun l : Level => 0 <= snd l) [(10.00, 20)]).
    constructor; [vm_compute; discriminate|constructor]. }
  assert (Ha : nonneg_sizes
                 (snapshot_get (exch_snapshot (exchange st_cold) "NVR") "asks")).
  { change (Forall (fun l : Level => 0 <= snd l) [(10.10, 5)]).
    constructor; [vm_compute; discriminate|constructor]. }
  split_and!; try assumption.
  destruct (imbalance_ratio "NVR" st_cold Hb Ha)
    as (r & Hr & _ & _ & _ & Hlo & Hhi & _).
  exists r. split_and!; assumption.
Defined.

Lemma volatility_adaptive_levels_orders_witness :
  tracked st_warm "NVR" /\
  exch_snapshot (exchange st_warm) "NVR" = Some dict_b /\
  dict_b !! "bids"%string = Some [(10.40, 60)] /\
  dict_b !! "asks"%string = Some [(10.50, 70)] /\
  exists v st',
    fst (calculate_volatility "NVR" st_warm) = Ok v /\
    volatility_adaptive_levels "NVR" st_warm = (Ok tt, st') /\
    submitted st' =
      [mkOrder (10.40 - 0.05 * (1 + v * 0.1) * 1) 10 buy "NVR";
       mkOrder (10.40 - 0.05 * (1 + v * 0.1) * 2) 10 buy "NVR";
       mkOrder (10.40 - 0.05 * (1 + v * 0.1) * 3) 10 buy "NVR";
       mkOrder (10.50 + 0.05 * (1 + v * 0.1) * 1) 10 sell "NVR";
       mkOrder (10.50 + 0.05 * (1 + v * 0.1) * 2) 10 sell "NVR";
       mkOrder (10.50 + 0.05 * (1 + v * 0.1) * 3) 10 sell "NVR"].
Proof.
  assert (Hs : exch_snapshot (exchange st_warm) "NVR" = Some dict_b)
    by (vm_compute; reflexivity).
  assert (Hb : dict_b !! "bids"%string = Some [(10.40, 60)])
    by (vm_compute; reflexivity).
  assert (Ha : dict_b !! "asks"%string = Some [(10.50, 70)])
    by (vm_compute; reflexivity).
  split_and!; try assumption; [apply tracked_st_warm|].
  destruct (volatility_adaptive_levels_orders "NVR" st_warm dict_b
              (10.40, 60) (10.50, 70) [] [] tracked_st_warm Hs Hb Ha)
    as (v & st1 & st' & Hv & Hrun & _ & Hlog).
  exists v, st'. split_and!; [by rewrite Hv|exact Hrun|exact Hlog].
Defined.

Lemma detect_large_orders_threshold_witness :
  exch_snapshot (exchange st_warm) "NVR" = Some dict_b /\
  dict_b !! "bids"%string = Some [(10.40, 60)] /\
  dict_b !! "asks"%string = Some [(10.50, 70)] /\
  exists st',
    detect_large_orders "NVR" st_warm = (Ok tt, st') /\
    submitted st' =
      [mkOrder (10.40 + 0.01) 5 buy "NVR"; mkOrder (10.50 - 0.01) 5 sell "NVR"].
Proof.
  assert (Hs : exch_snapshot (exchange st_warm) "NVR" = Some dict_b)
    by (vm_compute; reflexivity).
  assert (Hb : dict_b !! "bids"%string = Some [(10.40, 60)])
    by (vm_compute; reflexivity).
  assert (Ha : dict_b !! "asks"%string = Some [(10.50, 70)])
    by (vm_compute; reflexivity).
  split_and!; try assumption.
  destruct (detect_large_orders_threshold "NVR" st_warm dict_b
              (10.40, 60) (10.50, 70) [] [] Hs Hb Ha)
    as (st' & Hrun & _ & Hboth & _).
  exists st'. split; [exact Hrun|].
  apply Hboth; reflexivity.
Defined.

Lemma smart_order_sizing_effect_witness :
  unobservable (exch_snapshot (exchange st_dark) "NVR") /\
  snd (smart_order_sizing "NVR" st_dark) = st_dark.
Proof.
  assert (Hu : unobservable (exch_snapshot (exchange st_dark) "NVR"))
    by (left; vm_compute; reflexivity).
  split; [exact Hu|].
  apply (smart_order_sizing_effect "NVR" st_dark). exact Hu.
Defined.

Lemma smart_order_sizing_value_witness :
  calculate_volatility "NVR" st_warm =
    (Ok (Qabs ((10.40 + 10.50) / 2 - (10.00 + 10.10) / 2)),
     snd (calculate_volatility "NVR" st_warm)) /\
  smart_order_sizing "NVR" st_warm =
    (Ok 15%Z, snd (calculate_volatility "NVR" st_warm)).
Proof.
  assert (Hv : calculate_volatility "NVR" st_warm =
                 (Ok (Qabs ((10.40 + 10.50) / 2 - (10.00 + 10.10) / 2)),
                  snd (calculate_volatility "NVR" st_warm)))
    by (vm_compute; reflexivity).
  split; [exact Hv|].
  destruct (smart_order_sizing_value "NVR" st_warm _ _ Hv)
    as (n & Hn & _ & _ & _ & H04 & _).
  rewrite Hn. rewrite H04; reflexivity.
Defined.

Lemma stored_volatility_nonneg_witness :
  reachable st_warm /\
  exists v, volatility_memory st_warm !! "NVR"%string = Some v /\ 0 <= v.
Proof.
  split; [exact reachable_st_warm|].
  destruct (stored_volatility_nonneg (X:=gmap string Snapshot))
    as (_ & _ & Hreach).
  apply (Hreach st_warm reachable_st_warm).
  left. reflexivity.
Defined.

(** C7 as the specification words it fails: on a reachable instance with
    a recorded mid-price of 10.05 whose book now shows a mid-price of 10.45,
    [smart_order_sizing] returns 15 and overwrites both the stored
    volatility (0.0 becomes 0.4) and the recorded mid-price. *)
Lemma smart_order_sizing_mutates :
  reachable st_warm /\
  fst (smart_order_sizing "NVR" st_warm) = Ok 15%Z /\
  volatility_memory st_warm !! "NVR"%string = Some 0.0 /\
  (exists v,
     volatility_memory (snd (smart_order_sizing "NVR" st_warm)) !! "NVR"%string
       = Some v /\ v == 0.4) /\
  ~ same_memory st_warm (snd (smart_order_sizing "NVR" st_warm)).
Proof.
  split_and!.
  - exact reachable_st_warm.
  - vm_compute. reflexivity.
  - vm_compute. reflexivity.
  - eexists. split; [vm_compute; reflexivity|reflexivity].
  - intros (Hv & _ & _).
    apply (f_equal (fun m => m !! "NVR"%string)) in Hv.
    vm_compute in Hv. discriminate.
Qed.

(** Outside the configured symbols the memories have no entry: with a
    two-sided book for such a symbol the subscript in
    [calculate_volatility] raises, before any order is sent. *)
Example untracked_symbol_raises :
  let st := init (one_level_book "ZZZ" (10.00, 20) (10.10, 5)) in
  adaptive_pennying_strategy "ZZZ" st = (Raise (KeyError "ZZZ"), st).
Proof. vm_compute. reflexivity. Qed.

(** ** Beyond the specification: how the methods compose *)

Section Composition.
Context {X : Type} `{Participant X}.

Section Respect.
Variable R : Competitor X -> Competitor X -> Prop.
Hypothesis R_refl : forall st, R st st.
Hypothesis R_trans : forall st1 st2 st3, R st1 st2 -> R st2 st3 -> R st1 st3.
Hypothesis R_order :
  forall p size side symbol st,
    R st (snd (create_limit_order p size side symbol st)).
Hypothesis R_volatility :
  forall symbol st, R st (snd (calculate_volatility symbol st)).

Lemma respects_ret {A : Type} (a : A) : respects (X:=X) R (ret a).
Proof. intros st. apply R_refl. Qed.

Lemma respects_bind {A B : Type} (m : M X A) (k : A -> M X B) :
  respects R m -> (forall a, respects R (k a)) -> respects R (bind m k).
Proof.
  intros Hm Hk st. unfold bind. specialize (Hm st).
  destruct (m st) as [[a|e] st1]; cbn in Hm; [|exact Hm].
  eapply R_trans; [exact Hm|apply Hk].
Qed.

Lemma respects_query {A : Type} (m : M X A) :
  (forall st, exists r, m st = (Ok r, st)) -> respects R m.
Proof. intros Hq st. destruct (Hq st) as [r ->]. apply R_refl. Qed.

Lemma respects_for_each_price (prices : list Q) (size : Q) (side : Side)
    (symbol : string) :
  respects (X:=X) R (for_each_price prices size side symbol).
Proof.
  induction prices as [|p rest IH]; cbn [for_each_price].
  - apply respects_ret.
  - apply respects_bind; [intros st; apply R_order|intros _; exact IH].
Qed.

Lemma respects_adaptive_pennying_strategy (symbol : string) :
  respects (X:=X) R (adaptive_pennying_strategy symbol).
Proof.
  unfold adaptive_pennying_strategy.
  apply respects_bind; [apply respects_query; intros st; by eexists|].
  intros s. destruct (py_not s); [apply respects_ret|].
  destruct (snapshot_get s "bids"); [apply respects_ret|].
  destruct (snapshot_get s "asks"); [apply respects_ret|].
  apply respects_bind; [apply respects_query, get_mid_price_pure|]. intros _.
  apply respects_bind; [intros st; apply R_volatility|]. intros _.
  apply respects_bind;
    [apply respects_query, calculate_order_book_imbalance_pure|].
  intros imb.
  destruct (Qltb 0 imb); [|destruct (Qltb imb 0)];
    (apply respects_bind; [|intros _]); apply respects_for_each_price.
Qed.

Lemma respects_volatility_adaptive_levels (symbol : string) :
  respects (X:=X) R (volatility_adaptive_levels symbol).
Proof.
  unfold volatility_adaptive_levels.
  apply respects_bind; [apply respects_query; intros st; by eexists|].
  intros s. destruct (py_not s); [apply respects_ret|].
  destruct (snapshot_get s "bids"); [apply respects_ret|].
  destruct (snapshot_get s "asks"); [apply respects_ret|].
  apply respects_bind; [intros st; apply R_volatility|]. intros v.
  (apply respects_bind; [|intros _]); apply respects_for_each_price.
Qed.

Lemma respects_detect_large_orders (symbol : string) :
  respects (X:=X) R (detect_large_orders symbol).
Proof.
  unfold detect_large_orders.
  apply respects_bind; [apply respects_query; intros st; by eexists|].
  intros s. destruct (py_not s); [apply respects_ret|].
  destruct (snapshot_get s "bids") as [|b bids]; [apply respects_ret|].
  destruct (snapshot_get s "asks") as [|a asks]; [apply respects_ret|].
  cbv zeta. apply respects_bind; [|intros _].
  - destruct (Qltb 50 (snd b)); [|apply respects_ret].
    apply respects_bind; [intros st; apply R_order|intros _; apply respects_ret].
  - destruct (Qltb 50 (snd a)); [|apply respects_ret].
    apply respects_bind; [intros st; apply R_order|intros _; apply respects_ret].
Qed.

Lemma respects_strategy_loop (syms : list string) :
  respects (X:=X) R (strategy_loop syms).
Proof.
  induction syms as [|s rest IH]; cbn [strategy_loop].
  - apply respects_ret.
  - apply respects_bind; [apply respects_adaptive_pennying_strategy|].
    intros _.
    apply respects_bind; [apply respects_volatility_adaptive_levels|].
    intros _.
    apply respects_bind; [apply respects_detect_large_orders|].
    intros _. exact IH.
Qed.

(** Every method is built from [calculate_volatility] and
    [create_limit_order]: what holds across those two holds across any
    call. *)
Lemma every_call_respects (c : call) (st : Competitor X) : R st (after c st).
Proof.
  destruct c; cbn [after].
  - apply (respects_query _ (get_mid_price_pure symbol)).
  - apply R_volatility.
  - apply (respects_query _ (calculate_order_book_imbalance_pure symbol)).
  - apply respects_adaptive_pennying_strategy.
  - apply respects_volatility_adaptive_levels.
  - rewrite smart_order_sizing_state. apply R_volatility.
  - apply respects_detect_large_orders.
  - unfold strategy. apply respects_strategy_loop.
Qed.

End Respect.

(** The three ways a call of [calculate_volatility] can go. *)
Lemma calculate_volatility_cases (symbol : string) (st : Competitor X) :
  (exists r, calculate_volatility symbol st = (r, st)) \/
  (exists mid,
     get_mid_price symbol st = (Ok (Some mid), st) /\
     mid_price_memory st !! symbol = Some None /\
     calculate_volatility symbol st =
       (Ok 0.0,
        mkCompetitor (symbols st) (volatility_memory st)
          (<[symbol := Some mid]> (mid_price_memory st)) (ema_memory st)
          (alpha st) (exchange st) (submitted st))) \/
  (exists mid last,
     get_mid_price symbol st = (Ok (Some mid), st) /\
     mid_price_memory st !! symbol = Some (Some last) /\
     calculate_volatility symbol st =
       (Ok (Qabs (mid - last)),
        mkCompetitor (symbols st)
          (<[symbol := Qabs (mid - last)]> (volatility_memory st))
          (<[symbol := Some mid]> (mid_price_memory st)) (ema_memory st)
          (alpha st) (exchange st) (submitted st))).
Proof.
  destruct (get_mid_price_pure symbol st) as [[mid|] Hm].
  - destruct (mid_price_memory st !! symbol) as [[last|]|] eqn:Hl.
    + right. right. exists mid, last.
      split_and!; [exact Hm|reflexivity|].
      by apply calculate_volatility_warm.
    + right. left. exists mid.
      split_and!; [exact Hm|reflexivity|].
      by apply calculate_volatility_cold.
    + left. eexists. by apply (calculate_volatility_untracked _ _ mid).
  - left. rewrite (calculate_volatility_miss _ _ Hm). unfold read_volatility.
    destruct (volatility_memory st !! symbol); by eexists.
Qed.

Lemma create_limit_order_frame (p size : Q) (side : Side) (symbol : string)
    (st : Competitor X) :
  let st' := snd (create_limit_order p size side symbol st) in
  same_memory st st' /\ same_config st st' /\
  submitted st' = submitted st ++ [mkOrder p size side symbol].
Proof.
  unfold create_limit_order. cbn.
  destruct (exch_limit_order _ _) as [oid x']. cbn.
  unfold same_memory, same_config. cbn. tauto.
Qed.

Lemma call_keeps_invariant (I : Competitor X -> Prop) :
  (forall st st', same_memory st st' -> same_config st st' -> I st -> I st') ->
  (forall symbol st, I st -> I (snd (calculate_volatility symbol st))) ->
  forall (c : call) (st : Competitor X), I st -> I (after c st).
Proof.
  intros Hframe Hvol c st.
  apply (every_call_respects (fun st st' => I st -> I st')).
  - auto.
  - auto.
  - intros p size side symbol st0.
    destruct (create_limit_order_frame p size side symbol st0) as (Hm & Hc & _).
    apply Hframe; assumption.
  - intros symbol st0. apply Hvol.
Qed.

(** X5.  Any property of the memories and the configuration that one call
    of [calculate_volatility] keeps is kept by every call: no other method
    writes them. *)
Theorem memory_invariant_rule (I : Competitor X -> Prop) :
  (forall st st', same_memory st st' -> same_config st st' -> I st -> I st') ->
  (forall symbol st, I st -> I (snd (calculate_volatility symbol st))) ->
  forall (c : call) (st : Competitor X), I st -> I (after c st).
Proof.
  intros Hframe Hvol c st Hst.
  eapply call_keeps_invariant; eassumption.
Qed.

(** X4.  No call removes or rewrites a logged order, and no call assigns
    [symbols], [alpha] or [ema_memory]. *)
Theorem calls_append_only (c : call) (st : Competitor X) :
  log_extends st (after c st) /\ same_config st (after c st).
Proof.
  apply (every_call_respects
           (fun st st' => log_extends st st' /\ same_config st st')).
  - intros st0. split; [exists []; by rewrite app_nil_r|by split_and!].
  - intros st1 st2 st3 [[os1 Hl1] (Hs1 & Ha1 & He1)] [[os2 Hl2] (Hs2 & Ha2 & He2)].
    split.
    + exists (os1 ++ os2). by rewrite Hl2, Hl1, app_assoc.
    + unfold same_config. by rewrite Hs2, Ha2, He2.
  - intros p size side symbol st0.
    destruct (create_limit_order_frame p size side symbol st0) as (_ & Hc & Hl).
    split; [eexists; exact Hl|exact Hc].
  - intros symbol st0.
    destruct (calculate_volatility_frame symbol st0)
      as (Hs & He & Ha & _ & Hl & _).
    split; [exists []; by rewrite app_nil_r|by split_and!].
Qed.

(** *** Invariants of reachable instances *)

Lemma configured_init (x : X) : configured (init x).
Proof.
  split; [reflexivity|]. intros s. unfold init, the_symbols. cbn.
  rewrite !lookup_insert, !lookup_empty.
  repeat case_decide; subst; split; split;
    try (intros _; by eexists); try (intros _; tauto);
    try (intros [? [=]]); try tauto.
  all: intros [|[|[|[|[|[]]]]]]; congruence.
Qed.

Lemma configured_calculate_volatility (symbol : string) (st : Competitor X) :
  configured st -> configured (snd (calculate_volatility symbol st)).
Proof.
  intros [Hs Hk].
  destruct (calculate_volatility_cases symbol st)
    as [[r ->]|[(mid & _ & Hl & ->)|(mid & last & _ & Hl & ->)]];
    [by split| |]; split; try exact Hs; intros s; cbn;
    destruct (Hk s) as [Hv Hm]; destruct (Hk symbol) as [Hv' Hm'];
    rewrite ?lookup_insert; repeat case_decide; subst;
    split; try assumption; split; try (intros _; by eexists);
    intros _; apply Hm'; by eexists.
Qed.

Lemma configured_reachable (st : Competitor X) :
  reachable st -> configured st.
Proof.
  induction 1 as [x|c st _ IH|st x _ IH].
  - apply configured_init.
  - revert IH. apply call_keeps_invariant.
    + intros st0 st' (Hv & Hm & _) (Hs & _ & _) [Hs0 Hk].
      unfold configured. by rewrite Hs, Hv, Hm.
    + apply configured_calculate_volatility.
  - exact IH.
Qed.

Lemma cold_zero_calculate_volatility (symbol : string) (st : Competitor X) :
  cold_zero st -> cold_zero (snd (calculate_volatility symbol st)).
Proof.
  intros Hz.
  destruct (calculate_volatility_cases symbol st)
    as [[r ->]|[(mid & _ & Hl & ->)|(mid & last & _ & Hl & ->)]];
    [exact Hz| |]; intros s; cbn; rewrite !lookup_insert;
    repeat case_decide; subst; try discriminate; apply Hz.
Qed.

Lemma cold_zero_reachable (st : Competitor X) :
  reachable st -> cold_zero st.
Proof.
  induction 1 as [x|c st _ IH|st x _ IH].
  - intros s. unfold init, the_symbols. cbn.
    rewrite !lookup_insert, !lookup_empty.
    repeat case_decide; try reflexivity; discriminate.
  - revert IH. apply call_keeps_invariant.
    + intros st0 st' (Hv & Hm & _) _ Hz. unfold cold_zero. by rewrite Hv, Hm.
    + apply cold_zero_calculate_volatility.
  - exact IH.
Qed.


(** X7.  On a reachable instance, a call of [calculate_volatility] that returns
    leaves its return value as the stored volatility of the symbol, in all
    three of its branches. *)
Theorem returned_volatility_is_stored (symbol : string) (st st1 : Competitor X)
    (v : Q) :
  reachable st ->
  calculate_volatility symbol st = (Ok v, st1) ->
  volatility_memory st1 !! symbol = Some v.
Proof.
  intros Hr Hv. pose proof (cold_zero_reachable st Hr) as Hz.
  destruct (get_mid_price_pure symbol st) as [[mid|] Hm].
  - destruct (mid_price_memory st !! symbol) as [[last|]|] eqn:Hl.
    + rewrite (calculate_volatility_warm _ _ _ _ Hm Hl) in Hv.
      injection Hv as <- <-. cbn. apply lookup_insert_eq.
    + rewrite (calculate_volatility_cold _ _ _ Hm Hl) in Hv.
      injection Hv as <- <-. cbn. by apply Hz.
    + rewrite (calculate_volatility_untracked _ _ _ Hm Hl) in Hv.
      discriminate.
  - rewrite (calculate_volatility_miss _ _ Hm) in Hv. unfold read_volatility in Hv.
    destruct (volatility_memory st !! symbol) eqn:E; [|discriminate].
    by injection Hv as <- <-.
Qed.

(** *** Which calls can raise *)

Lemma observable_cases (s : option Snapshot) :
  unobservable s \/
  exists d b bids a asks,
    s = Some d /\ d !! "bids"%string = Some (b :: bids) /\
    d !! "asks"%string = Some (a :: asks).
Proof.
  destruct (py_not s) eqn:Hn; [left; by left|].
  destruct (snapshot_get s "bids") as [|b bids] eqn:Hb; [left; right; by left|].
  destruct (snapshot_get s "asks") as [|a asks] eqn:Ha; [left; right; by right|].
  right. destruct s as [d|]; [|discriminate]. cbn in Hb, Ha.
  exists d, b, bids, a, asks. split; [reflexivity|].
  destruct (d !! "bids"%string) as [l|]; [|discriminate].
  destruct (d !! "asks"%string) as [l'|]; [|discriminate].
  cbn in Hb, Ha. by subst.
Qed.

Lemma adaptive_pennying_raise (symbol : string) (st st1 : Competitor X)
    (d : Snapshot) (b a : Level) (bids asks : list Level) (e : exn) :
  exch_snapshot (exchange st) symbol = Some d ->
  d !! "bids"%string = Some (b :: bids) ->
  d !! "asks"%string = Some (a :: asks) ->
  calculate_volatility symbol st = (Raise e, st1) ->
  adaptive_pennying_strategy symbol st = (Raise e, st1).
Proof.
  intros Hs Hb Ha Hv.
  pose proof (get_mid_price_observable _ _ _ _ _ _ _ Hs Hb Ha) as Hm.
  unfold adaptive_pennying_strategy.
  unfold bind at 1. unfold get_order_book_snapshot at 1. rewrite Hs.
  cbn [py_not snapshot_get default].
  rewrite (dict_with_key_nonempty _ _ _ Hb), Hb, Ha.
  cbn [default from_option id].
  unfold bind at 1. rewrite Hm.
  unfold bind at 1. rewrite Hv. reflexivity.
Qed.

Lemma volatility_adaptive_levels_raise (symbol : string) (st st1 : Competitor X)
    (d : Snapshot) (b a : Level) (bids asks : list Level) (e : exn) :
  exch_snapshot (exchange st) symbol = Some d ->
  d !! "bids"%string = Some (b :: bids) ->
  d !! "asks"%string = Some (a :: asks) ->
  calculate_volatility symbol st = (Raise e, st1) ->
  volatility_adaptive_levels symbol st = (Raise e, st1).
Proof.
  intros Hs Hb Ha Hv.
  unfold volatility_adaptive_levels.
  unfold bind at 1. unfold get_order_book_snapshot at 1. rewrite Hs.
  cbn [py_not snapshot_get default].
  rewrite (dict_with_key_nonempty _ _ _ Hb), Hb, Ha.
  cbn [default from_option id].
  unfold bind at 1. rewrite Hv. reflexivity.
Qed.

(** X2.  For a symbol with no entry in either memory, [calculate_volatility]
    and [smart_order_sizing] raise [KeyError] whatever the book shows, and
    so do the two quoting strategies as soon as the book has both sides;
    in each case the instance is left as it was and no order is sent. *)
Theorem untracked_symbol_key_error (symbol : string) (st : Competitor X) :
  volatility_memory st !! symbol = None ->
  mid_price_memory st !! symbol = None ->
  calculate_volatility symbol st = (Raise (KeyError symbol), st) /\
  smart_order_sizing symbol st = (Raise (KeyError symbol), st) /\
  (forall d b bids a asks,
     exch_snapshot (exchange st) symbol = Some d ->
     d !! "bids"%string = Some (b :: bids) ->
     d !! "asks"%string = Some (a :: asks) ->
     adaptive_pennying_strategy symbol st = (Raise (KeyError symbol), st) /\
     volatility_adaptive_levels symbol st = (Raise (KeyError symbol), st)).
Proof.
  intros Hv Hl.
  assert (Hc : calculate_volatility symbol st = (Raise (KeyError symbol), st)).
  { destruct (get_mid_price_pure symbol st) as [[mid|] Hm].
    - by apply (calculate_volatility_untracked _ _ mid).
    - rewrite (calculate_volatility_miss _ _ Hm). unfold read_volatility.
      by rewrite Hv. }
  split_and!; [exact Hc|by apply smart_order_sizing_raise|].
  intros d b bids a asks Hs Hb Ha. split.
  - eapply adaptive_pennying_raise; eassumption.
  - eapply volatility_adaptive_levels_raise; eassumption.
Qed.

(** X3.  [get_mid_price], [calculate_order_book_imbalance] and
    [detect_large_orders] never raise, for any symbol, configured or not,
    and the first two leave the instance untouched. *)
Theorem lookups_never_raise (symbol : string) (st : Competitor X) :
  (exists r, get_mid_price symbol st = (Ok r, st)) /\
  (exists r, calculate_order_book_imbalance symbol st = (Ok r, st)) /\
  (exists st', detect_large_orders symbol st = (Ok tt, st')).
Proof.
  split_and!.
  - apply get_mid_price_pure.
  - apply calculate_order_book_imbalance_pure.
  - destruct (detect_large_orders_places symbol st) as [os Hos]. eauto.
Qed.

(** *** The tick *)

Lemma tracked_after (c : call) (st : Competitor X) (symbol : string) :
  tracked st symbol -> tracked (after c st) symbol.
Proof.
  apply (call_keeps_invariant (fun st => tracked st symbol)).
  - intros st0 st' (Hv & Hm & _) _. unfold tracked. by rewrite Hv, Hm.
  - intros s st0 [Hv Hm].
    destruct (calculate_volatility_cases s st0)
      as [[r ->]|[(mid & _ & Hl & ->)|(mid & last & _ & Hl & ->)]];
      [by split| |]; split; cbn; rewrite ?lookup_insert;
      try case_decide; try assumption; by eexists.
Qed.

Lemma adaptive_pennying_returns (symbol : string) (st : Competitor X) :
  tracked st symbol ->
  exists st', adaptive_pennying_strategy symbol st = (Ok tt, st').
Proof.
  intros Ht.
  destruct (observable_cases (exch_snapshot (exchange st) symbol))
    as [Hu|(d & b & bids & a & asks & Hs & Hb & Ha)].
  - exists st. by apply adaptive_pennying_unobservable.
  - destruct (calculate_volatility_tracked symbol st Ht) as [v Hv].
    destruct (calculate_order_book_imbalance_pure symbol st) as [imb Hi].
    eexists. eapply adaptive_pennying_run; eassumption.
Qed.

Lemma volatility_adaptive_levels_returns (symbol : string) (st : Competitor X) :
  tracked st symbol ->
  exists st', volatility_adaptive_levels symbol st = (Ok tt, st').
Proof.
  intros Ht.
  destruct (observable_cases (exch_snapshot (exchange st) symbol))
    as [Hu|(d & b & bids & a & asks & Hs & Hb & Ha)].
  - exists st. by apply volatility_adaptive_levels_unobservable.
  - destruct (calculate_volatility_tracked symbol st Ht) as [v Hv].
    eexists. eapply volatility_adaptive_levels_run; eassumption.
Qed.

Lemma strategy_loop_returns (syms : list string) (st : Competitor X) :
  (forall s, In s syms -> tracked st s) ->
  exists st', strategy_loop syms st = (Ok tt, st').
Proof.
  revert st. induction syms as [|s rest IH]; intros st Ht.
  - exists st. reflexivity.
  - cbn [strategy_loop]. unfold bind.
    destruct (adaptive_pennying_returns s st) as [st1 H1];
      [apply Ht; by left|].
    assert (T1 : forall s', In s' (s :: rest) -> tracked st1 s').
    { intros s' Hs'. change st1 with (snd (Ok tt, st1)). rewrite <- H1.
      apply (tracked_after (CallAdaptivePennyingStrategy s)). by apply Ht. }
    rewrite H1.
    destruct (volatility_adaptive_levels_returns s st1) as [st2 H2];
      [apply T1; by left|].
    assert (T2 : forall s', In s' (s :: rest) -> tracked st2 s').
    { intros s' Hs'. change st2 with (snd (Ok tt, st2)). rewrite <- H2.
      apply (tracked_after (CallVolatilityAdaptiveLevels s)). by apply T1. }
    rewrite H2.
    destruct (detect_large_orders_places s st2) as [os H3].
    rewrite H3. apply IH. intros s' Hs'.
    change (place_all os st2) with (snd (Ok tt, place_all os st2)).
    rewrite <- H3.
    apply (tracked_after (CallDetectLargeOrders s)). apply T2. by right.
Qed.

(** X10.  On a reachable instance [strategy] returns normally: none of the
    dictionary subscripts it reaches can raise, whatever the exchange
    shows and however it reacts to the orders. *)
Theorem strategy_returns (st : Competitor X) :
  reachable st -> exists st', strategy st = (Ok tt, st').
Proof.
  intros Hr. unfold strategy. apply strategy_loop_returns.
  intros s Hs. destruct (configured_reachable st Hr) as [Hsy Hk].
  rewrite Hsy in Hs. destruct (Hk s) as [Hv Hm]. split; tauto.
Qed.

Lemma strategy_loop_dark (syms : list string) (st : Competitor X) :
  (forall s, In s syms -> unobservable (exch_snapshot (exchange st) s)) ->
  strategy_loop syms st = (Ok tt, st).
Proof.
  induction syms as [|s rest IH]; intros Hu; [reflexivity|].
  cbn [strategy_loop]. unfold bind.
  rewrite adaptive_pennying_unobservable by (apply Hu; by left).
  rewrite volatility_adaptive_levels_unobservable by (apply Hu; by left).
  rewrite detect_large_orders_unobservable by (apply Hu; by left).
  apply IH. intros s' Hs'. apply Hu. by right.
Qed.

(** X11.  If no symbol of the list has a book with both sides, a whole tick
    changes nothing: [strategy] returns with the instance as it was, even
    for symbols the memories do not know. *)
Theorem strategy_without_books (st : Competitor X) :
  (forall s, In s (symbols st) ->
     unobservable (exch_snapshot (exchange st) s)) ->
  strategy st = (Ok tt, st).
Proof. intros Hu. unfold strategy. by apply strategy_loop_dark. Qed.

(** *** Volatility across consecutive calls *)

Lemma calculate_volatility_nonneg (symbol : string) (st st1 : Competitor X)
    (v : Q) :
  vol_nonneg st -> calculate_volatility symbol st = (Ok v, st1) -> 0 <= v.
Proof.
  intros Hn Hv.
  destruct (get_mid_price_pure symbol st) as [[mid|] Hm].
  - destruct (mid_price_memory st !! symbol) as [[last|]|] eqn:Hl.
    + rewrite (calculate_volatility_warm _ _ _ _ Hm Hl) in Hv.
      assert (E : Qabs (mid - last) = v) by congruence.
      rewrite <- E. apply Qabs_nonneg.
    + rewrite (calculate_volatility_cold _ _ _ Hm Hl) in Hv.
      assert (E : 0.0 = v) by congruence. rewrite <- E. lra.
    + rewrite (calculate_volatility_untracked _ _ _ Hm Hl) in Hv.
      discriminate.
  - rewrite (calculate_volatility_miss _ _ Hm) in Hv.
    unfold read_volatility in Hv.
    destruct (volatility_memory st !! symbol) as [w|] eqn:E; [|discriminate].
    assert (E' : w = v) by congruence. rewrite <- E'. by apply (Hn symbol).
Qed.

(** After an observation the observed mid-price is the recorded one. *)
Lemma calculate_volatility_records (symbol : string) (st : Competitor X)
    (mid : Q) :
  is_Some (mid_price_memory st !! symbol) ->
  get_mid_price symbol st = (Ok (Some mid), st) ->
  mid_price_memory (snd (calculate_volatility symbol st)) !! symbol =
    Some (Some mid).
Proof.
  intros [[last|] Hl] Hm.
  - rewrite (calculate_volatility_warm _ _ _ _ Hm Hl). cbn.
    apply lookup_insert_eq.
  - rewrite (calculate_volatility_cold _ _ _ Hm Hl). cbn.
    apply lookup_insert_eq.
Qed.

Lemma place_all_quiet (symbol : string) (os : list Order) (st : Competitor X) :
  quiet_entry symbol ->
  exch_snapshot (exchange (place_all os st)) symbol =
  exch_snapshot (exchange st) symbol.
Proof.
  intros Hq. revert st. induction os as [|o os IH]; intros st; [reflexivity|].
  change (place_all (o :: os) st) with (place_all os (place_all [o] st)).
  rewrite IH. unfold place_all, create_limit_order. cbn.
  pose proof (Hq (exchange st)
                (mkOrder (o_price o) (o_size o) (o_side o) (o_symbol o))) as E.
  destruct (exch_limit_order _ _) as [oid x']. exact E.
Qed.

(** X8.  A second [calculate_volatility] on an unchanged book returns zero and
    stores it: the first call has made the current mid-price the recorded
    one, so the difference vanishes and the earlier volatility is lost. *)
Theorem second_observation_is_zero (symbol : string) (st : Competitor X)
    (mid : Q) :
  is_Some (mid_price_memory st !! symbol) ->
  get_mid_price symbol st = (Ok (Some mid), st) ->
  exists v st2,
    calculate_volatility symbol (snd (calculate_volatility symbol st)) =
      (Ok v, st2) /\
    v == 0 /\
    volatility_memory st2 !! symbol = Some v /\
    mid_price_memory st2 !! symbol = Some (Some mid).
Proof.
  intros Hl Hm.
  pose proof (calculate_volatility_records _ _ _ Hl Hm) as Hrec.
  set (st1 := snd (calculate_volatility symbol st)) in *.
  assert (Hm1 : get_mid_price symbol st1 = (Ok (Some mid), st1)).
  { destruct (calculate_volatility_frame symbol st) as (_ & _ & _ & Hx & _).
    fold st1 in Hx. unfold get_mid_price, bind, get_order_book_snapshot in *.
    rewrite Hx. cbn in *.
    destruct (py_not _); [discriminate|].
    destruct (snapshot_get _ "bids"); [discriminate|].
    destruct (snapshot_get _ "asks"); [discriminate|].
    unfold ret in *. injection Hm as ->. reflexivity. }
  rewrite (calculate_volatility_warm _ _ _ _ Hm1 Hrec).
  do 2 eexists. split_and!; [reflexivity| |apply lookup_insert_eq
                            |apply lookup_insert_eq].
  apply Qabs_case; intros _; lra.
Qed.

(** X9.  One symbol's share of a tick, when order entry does not disturb the
    snapshot: after [adaptive_pennying_strategy] has run,
    [volatility_adaptive_levels] always computes volatility zero, so its
    level distance is the base distance whatever the market did, and zero
    is what stays stored. *)
Theorem tick_sees_zero_volatility (symbol : string) (st : Competitor X)
    (d : Snapshot) (b a : Level) (bids asks : list Level) :
  quiet_entry symbol ->
  tracked st symbol ->
  exch_snapshot (exchange st) symbol = Some d ->
  d !! "bids"%string = Some (b :: bids) ->
  d !! "asks"%string = Some (a :: asks) ->
  exists st1 st2 v,
    adaptive_pennying_strategy symbol st = (Ok tt, st1) /\
    volatility_adaptive_levels symbol st1 = (Ok tt, st2) /\
    v == 0 /\
    volatility_memory st2 !! symbol = Some v /\
    submitted st2 = submitted st1 ++
      [mkOrder (fst b - 0.05 * (1 + v * 0.1) * 1) 10 buy symbol;
       mkOrder (fst b - 0.05 * (1 + v * 0.1) * 2) 10 buy symbol;
       mkOrder (fst b - 0.05 * (1 + v * 0.1) * 3) 10 buy symbol;
       mkOrder (fst a + 0.05 * (1 + v * 0.1) * 1) 10 sell symbol;
       mkOrder (fst a + 0.05 * (1 + v * 0.1) * 2) 10 sell symbol;
       mkOrder (fst a + 0.05 * (1 + v * 0.1) * 3) 10 sell symbol].
Proof.
  intros Hq Ht Hs Hb Ha.
  pose proof (get_mid_price_observable _ _ _ _ _ _ _ Hs Hb Ha) as Hm.
  destruct (calculate_volatility_tracked symbol st Ht) as [v0 Hv0].
  destruct (calculate_order_book_imbalance_pure symbol st) as [imb Hi].
  pose proof (adaptive_pennying_run _ _ _ _ _ _ _ _ _ _ Hs Hb Ha Hv0 Hi) as Hrun.
  pose proof (calculate_volatility_records _ _ _ (proj2 Ht) Hm) as Hrec.
  set (sv := snd (calculate_volatility symbol st)) in *.
  match type of Hrun with _ = (_, place_all ?os _) => set (pen := os) in * end.
  set (st1 := place_all pen sv) in *.
  destruct (place_all_frame pen sv) as (_ & (Hpv & Hpm & _) & _ & _).
  fold st1 in Hpv, Hpm.
  assert (Hs1 : exch_snapshot (exchange st1) symbol = Some d).
  { unfold st1. rewrite (place_all_quiet _ _ _ Hq).
    destruct (calculate_volatility_frame symbol st) as (_ & _ & _ & Hx & _).
    fold sv in Hx. by rewrite Hx. }
  pose proof (get_mid_price_observable _ _ _ _ _ _ _ Hs1 Hb Ha) as Hm1.
  assert (Hrec1 : mid_price_memory st1 !! symbol =
                  Some (Some ((fst b + fst a) / 2))) by (by rewrite Hpm).
  pose proof (calculate_volatility_warm _ _ _ _ Hm1 Hrec1) as Hv1.
  pose proof (volatility_adaptive_levels_run _ _ _ _ _ _ _ _ _ Hs1 Hb Ha Hv1)
    as Hrun2.
  match type of Hrun2 with _ = (_, place_all ?os ?s2) =>
    destruct (place_all_frame os s2) as (_ & (Hqv & _) & _ & Hql) end.
  exists st1. eexists.
  exists (Qabs ((fst b + fst a) / 2 - (fst b + fst a) / 2)).
  split_and!; [exact Hrun|exact Hrun2| | |].
  - apply Qabs_case; intros _; lra.
  - rewrite Hqv. cbn. apply lookup_insert_eq.
  - rewrite Hql. reflexivity.
Qed.

(** *** Where the deep quotes land *)

(** X14.  With non-negative stored volatilities, the three deep buys lie strictly
    below the best bid, each at least 0.05 below the previous one, and the
    three deep sells mirror them above the best ask. *)
Theorem deep_levels_recede (symbol : string) (st : Competitor X)
    (d : Snapshot) (b a : Level) (bids asks : list Level) :
  vol_nonneg st ->
  tracked st symbol ->
  exch_snapshot (exchange st) symbol = Some d ->
  d !! "bids"%string = Some (b :: bids) ->
  d !! "asks"%string = Some (a :: asks) ->
  exists st' b1 b2 b3 a1 a2 a3,
    volatility_adaptive_levels symbol st = (Ok tt, st') /\
    submitted st' = submitted st ++
      [mkOrder b1 10 buy symbol; mkOrder b2 10 buy symbol;
       mkOrder b3 10 buy symbol; mkOrder a1 10 sell symbol;
       mkOrder a2 10 sell symbol; mkOrder a3 10 sell symbol] /\
    b1 <= fst b - 0.05 /\ b2 <= b1 - 0.05 /\ b3 <= b2 - 0.05 /\
    fst a + 0.05 <= a1 /\ a1 + 0.05 <= a2 /\ a2 + 0.05 <= a3.
Proof.
  intros Hn Ht Hs Hb Ha.
  destruct (calculate_volatility_tracked symbol st Ht) as [v Hv].
  pose proof (calculate_volatility_nonneg _ _ _ _ Hn Hv) as Hv0.
  pose proof (volatility_adaptive_levels_run _ _ _ _ _ _ _ _ _ Hs Hb Ha Hv)
    as Hrun.
  do 7 eexists. split_and!; [exact Hrun| | | | | | |].
  - apply (submitted_after_volatility _ _ _ _ _ Hv).
  - lra.
  - lra.
  - lra.
  - lra.
  - lra.
  - lra.
Qed.

(** *** Reading the book *)

(** X1.  [get_mid_price] answers [None] exactly when the snapshot is absent,
    empty, or lacks a side; otherwise it answers the mean of the two best
    prices, which lies between them when the book is not crossed. *)
Theorem get_mid_price_spec (symbol : string) (st : Competitor X) :
  let s := exch_snapshot (exchange st) symbol in
  exists r,
    get_mid_price symbol st = (Ok r, st) /\
    (r = None <-> unobservable s) /\
    (forall mid, r = Some mid ->
       exists b bids a asks,
         snapshot_get s "bids" = b :: bids /\
         snapshot_get s "asks" = a :: asks /\
         mid = (fst b + fst a) / 2 /\
         (fst b <= fst a -> fst b <= mid /\ mid <= fst a)).
Proof.
  intros s.
  destruct (observable_cases s) as [Hu|(d & b & bids & a & asks & Hs & Hb & Ha)].
  - exists None. split_and!.
    + by apply get_mid_price_unobservable.
    + tauto.
    + discriminate.
  - exists (Some ((fst b + fst a) / 2)). split_and!.
    + eapply get_mid_price_observable; eassumption.
    + split; [discriminate|]. intros Hu. exfalso.
      unfold unobservable in Hu. rewrite Hs in Hu.
      unfold py_not, snapshot_get in Hu. rewrite Hb, Ha in Hu. cbn in Hu.
      rewrite (dict_with_key_nonempty _ _ _ Hb) in Hu.
      destruct Hu as [|[|]]; discriminate.
    + intros mid [= <-]. exists b, bids, a, asks.
      rewrite Hs. cbn. rewrite Hb, Ha. cbn.
      split_and!; try reflexivity.
      intros Hle. split.
      * apply Qle_shift_div_l; lra.
      * apply Qle_shift_div_r; lra.
Qed.

Lemma dict_is_empty_true (d : Snapshot) : dict_is_empty d = true -> d = ∅.
Proof.
  unfold dict_is_empty. destruct (map_to_list d) eqn:E; [|discriminate].
  intros _. by apply map_to_list_empty_iff.
Qed.

Lemma py_not_sides_empty (s : option Snapshot) (key : string) :
  py_not s = true -> snapshot_get s key = [].
Proof.
  destruct s as [d|]; [|reflexivity]. cbn. intros Hd.
  rewrite (dict_is_empty_true d Hd). by rewrite lookup_empty.
Qed.

(** X12.  With non-negative sizes the sign of the imbalance is the sign of the
    difference of the two top-five sums: positive exactly when the bids
    outweigh the asks, negative exactly when the asks outweigh the bids,
    zero exactly when they balance. *)
Theorem imbalance_sign (symbol : string) (st : Competitor X) :
  let s := exch_snapshot (exchange st) symbol in
  let B := py_sum (map snd (take 5%nat (snapshot_get s "bids"))) in
  let A := py_sum (map snd (take 5%nat (snapshot_get s "asks"))) in
  nonneg_sizes (snapshot_get s "bids") ->
  nonneg_sizes (snapshot_get s "asks") ->
  exists r,
    calculate_order_book_imbalance symbol st = (Ok r, st) /\
    (0 < r <-> A < B) /\ (r < 0 <-> B < A) /\ (r == 0 <-> B == A).
Proof.
  intros s B A Hnb Hna.
  pose proof (top5_sum_nonneg _ Hnb) as HB. fold B in HB.
  pose proof (top5_sum_nonneg _ Hna) as HA. fold A in HA.
  unfold calculate_order_book_imbalance. step_monad. fold s.
  destruct (py_not s) eqn:Hn.
  { assert (EB : B = 0).
    { unfold B. by rewrite (py_not_sides_empty s "bids" Hn). }
    assert (EA : A = 0).
    { unfold A. by rewrite (py_not_sides_empty s "asks" Hn). }
    exists 0. rewrite EB, EA. split_and!; try reflexivity; split; lra. }
  fold B A. destruct (Qeq_bool (B + A) 0) eqn:Hz.
  - apply Qeq_bool_iff in Hz. exists 0.
    split_and!; try reflexivity; split; lra.
  - apply Qeq_bool_neq in Hz.
    assert (Hpos : 0 < B + A).
    { destruct (Qlt_le_dec 0 (B + A)) as [Hlt|Hle]; [exact Hlt|].
      exfalso. apply Hz. lra. }
    exists ((B - A) / (B + A)).
    assert (Hmul : (B - A) / (B + A) * (B + A) == B - A).
    { rewrite Qmult_comm. apply Qmult_div_r. exact Hz. }
    set (r := (B - A) / (B + A)) in *.
    split_and!; try reflexivity; split; intros Hr; nra.
Qed.

(** *** Where the pennying quotes land *)

(** X13.  Whatever the imbalance, every pennying buy is above the best bid by at
    most 0.03 and every pennying sell below the best ask by at most 0.03,
    and the closest buy and sell are exactly 0.04 closer together than the
    book's best bid and ask.  No spread check guards this: on a spread of
    0.04 or less the strategy's own buy meets or passes its own sell. *)
Theorem pennying_quotes_inside_touch (symbol : string) (st : Competitor X)
    (d : Snapshot) (b a : Level) (bids asks : list Level) :
  tracked st symbol ->
  exch_snapshot (exchange st) symbol = Some d ->
  d !! "bids"%string = Some (b :: bids) ->
  d !! "asks"%string = Some (a :: asks) ->
  exists st' os,
    adaptive_pennying_strategy symbol st = (Ok tt, st') /\
    submitted st' = submitted st ++ os /\
    (forall o, In o os ->
       o_size o = 5 /\ o_symbol o = symbol /\
       (o_side o = buy -> fst b < o_price o /\ o_price o <= fst b + 0.03) /\
       (o_side o = sell -> fst a - 0.03 <= o_price o /\ o_price o < fst a)) /\
    (forall ob osl, In ob os -> In osl os ->
       o_side ob = buy -> o_side osl = sell ->
       fst a - fst b - 0.04 <= o_price osl - o_price ob) /\
    (exists ob osl,
       In ob os /\ In osl os /\ o_side ob = buy /\ o_side osl = sell /\
       o_price osl - o_price ob == fst a - fst b - 0.04).
Proof.
  intros Ht Hs Hb Ha.
  destruct (calculate_volatility_tracked symbol st Ht) as [v Hv].
  destruct (calculate_order_book_imbalance_pure symbol st) as [imb Hi].
  pose proof (adaptive_pennying_run _ _ _ _ _ _ _ _ _ _ Hs Hb Ha Hv Hi) as Hrun.
  destruct (Qltb 0 imb); [|destruct (Qltb imb 0)];
    (eexists; eexists; split; [exact Hrun|];
     split; [apply (submitted_after_volatility _ _ _ _ _ Hv)|];
     split_and!;
     [ intros o Ho; cbn in Ho;
       repeat (destruct Ho as [<-|Ho]; [cbn; split_and!; try reflexivity;
                                        intros; try discriminate; split; lra|]);
       destruct Ho
     | intros ob osl Hob Hosl Eb Es; cbn in Hob, Hosl;
       repeat (destruct Hob as [<-|Hob]; try discriminate);
       try (destruct Hob);
       repeat (destruct Hosl as [<-|Hosl]; try discriminate);
       try (destruct Hosl); cbn; lra
     | ]).
  - exists (mkOrder (fst b + 0.03) 5 buy symbol),
           (mkOrder (fst a - 0.01) 5 sell symbol).
    cbn. split_and!; try reflexivity; try tauto. lra.
  - exists (mkOrder (fst b + 0.01) 5 buy symbol),
           (mkOrder (fst a - 0.03) 5 sell symbol).
    cbn. split_and!; try reflexivity; try tauto. lra.
  - exists (mkOrder (fst b + 0.02) 5 buy symbol),
           (mkOrder (fst a - 0.02) 5 sell symbol).
    cbn. split_and!; try reflexivity; try tauto. lra.
Qed.

(** *** Sizing *)

Lemma sized_range (v : Q) : sized v = 5%Z \/ sized v = 10%Z \/ sized v = 15%Z.
Proof.
  unfold sized. destruct (Qltb v 0.5); [|destruct (Qltb 2.0 v)]; auto.
Qed.

Lemma sized_antitone (v v' : Q) : v <= v' -> (sized v' <= sized v)%Z.
Proof.
  intros Hle. unfold sized.
  destruct (Qltb v 0.5) eqn:E1, (Qltb v' 0.5) eqn:E1',
           (Qltb 2.0 v) eqn:E2, (Qltb 2.0 v') eqn:E2';
    try apply Qltb_lt in E1; try apply Qltb_ge in E1;
    try apply Qltb_lt in E1'; try apply Qltb_ge in E1';
    try apply Qltb_lt in E2; try apply Qltb_ge in E2;
    try apply Qltb_lt in E2'; try apply Qltb_ge in E2';
    try (exfalso; lra); vm_compute; discriminate.
Qed.

(** X15.  The size never grows with volatility, and it is always one of 5, 10
    and 15: the floor of 1 in the code is never the binding term. *)
Theorem smart_order_sizing_monotone (symbol symbol' : string)
    (st st1 st' st1' : Competitor X) (v v' : Q) :
  calculate_volatility symbol st = (Ok v, st1) ->
  calculate_volatility symbol' st' = (Ok v', st1') ->
  v <= v' ->
  exists n n' : Z,
    smart_order_sizing symbol st = (Ok n, st1) /\
    smart_order_sizing symbol' st' = (Ok n', st1') /\
    (n' <= n)%Z /\
    (n = 5 \/ n = 10 \/ n = 15)%Z /\ (n' = 5 \/ n' = 10 \/ n' = 15)%Z.
Proof.
  intros Hv Hv' Hle. exists (sized v), (sized v').
  split_and!.
  - apply smart_order_sizing_run. exact Hv.
  - apply smart_order_sizing_run. exact Hv'.
  - by apply sized_antitone.
  - apply sized_range.
  - apply sized_range.
Qed.

(** *** What the quoting strategies do to the memories *)

(** X16.  On a book with both sides, each of the two quoting strategies leaves
    the three memories exactly as a single [calculate_volatility] call
    does, whether it goes on to submit its orders or raises. *)
Theorem quoting_memory_effect (symbol : string) (st : Competitor X)
    (d : Snapshot) (b a : Level) (bids asks : list Level) :
  exch_snapshot (exchange st) symbol = Some d ->
  d !! "bids"%string = Some (b :: bids) ->
  d !! "asks"%string = Some (a :: asks) ->
  same_memory (snd (calculate_volatility symbol st))
              (snd (adaptive_pennying_strategy symbol st)) /\
  same_memory (snd (calculate_volatility symbol st))
              (snd (volatility_adaptive_levels symbol st)).
Proof.
  intros Hs Hb Ha.
  destruct (calculate_volatility symbol st) as [[v|e] sv] eqn:Hv; cbn [snd].
  - destruct (calculate_order_book_imbalance_pure symbol st) as [imb Hi].
    rewrite (adaptive_pennying_run _ _ _ _ _ _ _ _ _ _ Hs Hb Ha Hv Hi).
    rewrite (volatility_adaptive_levels_run _ _ _ _ _ _ _ _ _ Hs Hb Ha Hv).
    cbn [snd]. split; apply place_all_frame.
  - rewrite (adaptive_pennying_raise _ _ _ _ _ _ _ _ _ Hs Hb Ha Hv).
    rewrite (volatility_adaptive_levels_raise _ _ _ _ _ _ _ _ _ Hs Hb Ha Hv).
    cbn [snd]. by split.
Qed.

End Composition.

(** *** Concrete runs of the composition theorems *)

Lemma snapshot_st_cold : exch_snapshot (exchange st_cold) "NVR" = Some dict_a.
Proof. vm_compute. reflexivity. Defined.

Lemma snapshot_st_warm : exch_snapshot (exchange st_warm) "NVR" = Some dict_b.
Proof. vm_compute. reflexivity. Defined.

Lemma bids_dict_a : dict_a !! "bids"%string = Some [(10.00, 20)].
Proof. vm_compute. reflexivity. Defined.

Lemma asks_dict_a : dict_a !! "asks"%string = Some [(10.10, 5)].
Proof. vm_compute. reflexivity. Defined.

Lemma bids_dict_b : dict_b !! "bids"%string = Some [(10.40, 60)].
Proof. vm_compute. reflexivity. Defined.

Lemma asks_dict_b : dict_b !! "asks"%string = Some [(10.50, 70)].
Proof. vm_compute. reflexivity. Defined.

Lemma static_book_quiet (symbol : string) :
  quiet_entry (X:=gmap string Snapshot) symbol.
Proof. intros x o. reflexivity. Defined.

Lemma memory_invariant_rule_witness :
  ema_memory (after CallStrategy st_cold) = ema_memory st_cold.
Proof.
  apply (memory_invariant_rule
           (fun st => ema_memory st = ema_memory st_cold)).
  - intros st st' (_ & _ & He) _ Hst. by rewrite He.
  - intros symbol st Hst.
    destruct (calculate_volatility_frame symbol st) as (_ & He & _).
    by rewrite He.
  - reflexivity.
Defined.


Lemma returned_volatility_is_stored_witness :
  reachable st_warm /\
  calculate_volatility "NVR" st_warm =
    (Ok (Qabs ((10.40 + 10.50) / 2 - (10.00 + 10.10) / 2)),
     snd (calculate_volatility "NVR" st_warm)) /\
  volatility_memory (snd (calculate_volatility "NVR" st_warm)) !! "NVR"%string =
    Some (Qabs ((10.40 + 10.50) / 2 - (10.00 + 10.10) / 2)).
Proof.
  assert (Hv : calculate_volatility "NVR" st_warm =
                 (Ok (Qabs ((10.40 + 10.50) / 2 - (10.00 + 10.10) / 2)),
                  snd (calculate_volatility "NVR" st_warm)))
    by (vm_compute; reflexivity).
  split_and!; [exact reachable_st_warm|exact Hv|].
  exact (returned_volatility_is_stored "NVR" st_warm _ _ reachable_st_warm Hv).
Defined.

Lemma untracked_symbol_key_error_witness :
  volatility_memory st_stranger !! "ZZZ"%string = None /\
  mid_price_memory st_stranger !! "ZZZ"%string = None /\
  calculate_volatility "ZZZ" st_stranger = (Raise (KeyError "ZZZ"), st_stranger) /\
  smart_order_sizing "ZZZ" st_stranger = (Raise (KeyError "ZZZ"), st_stranger).
Proof.
  assert (Hv : volatility_memory st_stranger !! "ZZZ"%string = None)
    by (vm_compute; reflexivity).
  assert (Hl : mid_price_memory st_stranger !! "ZZZ"%string = None)
    by (vm_compute; reflexivity).
  destruct (untracked_symbol_key_error "ZZZ" st_stranger Hv Hl)
    as (Hc & Hz & _).
  split_and!; assumption.
Defined.

Lemma strategy_returns_witness :
  reachable st_warm /\ exists st', strategy st_warm = (Ok tt, st').
Proof.
  split; [exact reachable_st_warm|].
  exact (strategy_returns st_warm reachable_st_warm).
Defined.

Lemma strategy_without_books_witness :
  (forall s, In s (symbols st_dark) ->
     unobservable (exch_snapshot (exchange st_dark) s)) /\
  strategy st_dark = (Ok tt, st_dark).
Proof.
  assert (Hu : forall s, In s (symbols st_dark) ->
                 unobservable (exch_snapshot (exchange st_dark) s)).
  { intros s _. left.
    change (py_not ((∅ : gmap string Snapshot) !! s) = true).
    rewrite lookup_empty. reflexivity. }
  split; [exact Hu|]. exact (strategy_without_books st_dark Hu).
Defined.

Lemma second_observation_is_zero_witness :
  is_Some (mid_price_memory st_cold !! "NVR"%string) /\
  get_mid_price "NVR" st_cold = (Ok (Some ((10.00 + 10.10) / 2)), st_cold) /\
  exists v st2,
    calculate_volatility "NVR" (snd (calculate_volatility "NVR" st_cold)) =
      (Ok v, st2) /\
    v == 0.
Proof.
  assert (Hl : is_Some (mid_price_memory st_cold !! "NVR"%string))
    by (eexists; vm_compute; reflexivity).
  assert (Hm : get_mid_price "NVR" st_cold =
               (Ok (Some ((10.00 + 10.10) / 2)), st_cold))
    by (vm_compute; reflexivity).
  split_and!; try assumption.
  destruct (second_observation_is_zero "NVR" st_cold _ Hl Hm)
    as (v & st2 & Hrun & Hz & _).
  exists v, st2. by split.
Defined.

Lemma tick_sees_zero_volatility_witness :
  quiet_entry (X:=gmap string Snapshot) "NVR" /\
  tracked st_warm "NVR" /\
  exists st1 st2 v,
    adaptive_pennying_strategy "NVR" st_warm = (Ok tt, st1) /\
    volatility_adaptive_levels "NVR" st1 = (Ok tt, st2) /\
    v == 0 /\
    volatility_memory st2 !! "NVR"%string = Some v.
Proof.
  split_and!; [apply static_book_quiet|apply tracked_st_warm|].
  destruct (tick_sees_zero_volatility "NVR" st_warm dict_b (10.40, 60)
              (10.50, 70) [] [] (static_book_quiet "NVR") tracked_st_warm
              snapshot_st_warm bids_dict_b asks_dict_b)
    as (st1 & st2 & v & H1 & H2 & Hz & Hst & _).
  exists st1, st2, v. by split_and!.
Defined.

Lemma deep_levels_recede_witness :
  vol_nonneg st_warm /\
  tracked st_warm "NVR" /\
  exists st' b1 a1,
    volatility_adaptive_levels "NVR" st_warm = (Ok tt, st') /\
    In (mkOrder b1 10 buy "NVR") (submitted st') /\
    In (mkOrder a1 10 sell "NVR") (submitted st') /\
    b1 <= 10.40 - 0.05 /\ 10.50 + 0.05 <= a1.
Proof.
  assert (Hn : vol_nonneg st_warm)
    by exact (proj1 (reachable_memory_ok st_warm reachable_st_warm)).
  split_and!; [exact Hn|apply tracked_st_warm|].
  destruct (deep_levels_recede "NVR" st_warm dict_b (10.40, 60) (10.50, 70)
              [] [] Hn tracked_st_warm snapshot_st_warm bids_dict_b asks_dict_b)
    as (st' & b1 & b2 & b3 & a1 & a2 & a3 & Hrun & Hlog & Hb1 & _ & _ & Ha1 & _).
  exists st', b1, a1. rewrite Hlog.
  split_and!; [exact Hrun| | |exact Hb1|exact Ha1];
    apply in_or_app; right; cbn; tauto.
Defined.

Lemma imbalance_sign_witness :
  nonneg_sizes (snapshot_get (exch_snapshot (exchange st_cold) "NVR") "bids") /\
  nonneg_sizes (snapshot_get (exch_snapshot (exchange st_cold) "NVR") "asks") /\
  exists r, calculate_order_book_imbalance "NVR" st_cold = (Ok r, st_cold) /\
            0 < r.
Proof.
  assert (Hb : nonneg_sizes
                 (snapshot_get (exch_snapshot (exchange st_cold) "NVR") "bids")).
  { change (Forall (fun l : Level => 0 <= snd l) [(10.00, 20)]).
    constructor; [vm_compute; discriminate|constructor]. }
  assert (Ha : nonneg_sizes
                 (snapshot_get (exch_snapshot (exchange st_cold) "NVR") "asks")).
  { change (Forall (fun l : Level => 0 <= snd l) [(10.10, 5)]).
    constructor; [vm_compute; discriminate|constructor]. }
  split_and!; try assumption.
  destruct (imbalance_sign "NVR" st_cold Hb Ha) as (r & Hr & Hpos & _).
  exists r. split; [exact Hr|]. apply Hpos. reflexivity.
Defined.

Lemma pennying_quotes_inside_touch_witness :
  tracked st_cold "NVR" /\
  exists st' os,
    adaptive_pennying_strategy "NVR" st_cold = (Ok tt, st') /\
    submitted st' = submitted st_cold ++ os /\
    exists ob osl,
      In ob os /\ In osl os /\ o_side ob = buy /\ o_side osl = sell /\
      o_price osl - o_price ob == 10.10 - 10.00 - 0.04.
Proof.
  split; [apply tracked_st_cold|].
  destruct (pennying_quotes_inside_touch "NVR" st_cold dict_a (10.00, 20)
              (10.10, 5) [] [] tracked_st_cold snapshot_st_cold bids_dict_a
              asks_dict_a)
    as (st' & os & Hrun & Hlog & _ & _ & Htight).
  exists st', os. by split_and!.
Defined.

Lemma smart_order_sizing_monotone_witness :
  0.0 <= Qabs ((13.00 + 13.10) / 2 - (10.00 + 10.10) / 2) /\
  exists n n' : Z,
    fst (smart_order_sizing "NVR" st_cold) = Ok n /\
    fst (smart_order_sizing "NVR" st_hot) = Ok n' /\
    (n' <= n)%Z.
Proof.
  assert (Hle : 0.0 <= Qabs ((13.00 + 13.10) / 2 - (10.00 + 10.10) / 2))
    by (vm_compute; discriminate).
  assert (Hv : calculate_volatility "NVR" st_cold =
                 (Ok 0.0, snd (calculate_volatility "NVR" st_cold)))
    by (vm_compute; reflexivity).
  assert (Hv' : calculate_volatility "NVR" st_hot =
                  (Ok (Qabs ((13.00 + 13.10) / 2 - (10.00 + 10.10) / 2)),
                   snd (calculate_volatility "NVR" st_hot)))
    by (vm_compute; reflexivity).
  split; [exact Hle|].
  destruct (smart_order_sizing_monotone "NVR" "NVR" st_cold _ st_hot _ _ _
              Hv Hv' Hle)
    as (n & n' & Hn & Hn' & Hmono & _).
  exists n, n'. rewrite Hn, Hn'. by split_and!.
Defined.

Lemma quoting_memory_effect_witness :
  exch_snapshot (exchange st_cold) "NVR" = Some dict_a /\
  same_memory (snd (calculate_volatility "NVR" st_cold))
              (snd (adaptive_pennying_strategy "NVR" st_cold)).
Proof.
  split; [exact snapshot_st_cold|].
  exact (proj1 (quoting_memory_effect "NVR" st_cold dict_a (10.00, 20)
                  (10.10, 5) [] [] snapshot_st_cold bids_dict_a asks_dict_a)).
Defined.

Lemma get_mid_price_spec_witness :
  exists mid,
    get_mid_price "NVR" st_cold = (Ok (Some mid), st_cold) /\
    10.00 <= mid /\ mid <= 10.10.
Proof.
  destruct (get_mid_price_spec "NVR" st_cold) as (r & Hr & _ & Hmid).
  assert (Hm : get_mid_price "NVR" st_cold =
               (Ok (Some ((10.00 + 10.10) / 2)), st_cold))
    by (vm_compute; reflexivity).
  rewrite Hm in Hr. injection Hr as <-.
  destruct (Hmid _ eq_refl) as (b & bids & a & asks & Hb & Ha & _ & Hbetween).
  exists ((10.00 + 10.10) / 2). split; [exact Hm|].
  assert (Eb : b = (10.00, 20)).
  { change (snapshot_get (exch_snapshot (exchange st_cold) "NVR") "bids")
      with [((10.00, 20) : Level)] in Hb. congruence. }
  assert (Ea : a = (10.10, 5)).
  { change (snapshot_get (exch_snapshot (exchange st_cold) "NVR") "asks")
      with [((10.10, 5) : Level)] in Ha. congruence. }
  subst b a. apply Hbetween. vm_compute. discriminate.
Defined.
